(** * The benchmark runner of [bench_pt_op/__main__.py]

    A shallow embedding of [main]: the selection loop over the operator
    list, the summary line, and the execution loop with its
    [try ... except Exception] around every benchmark function.

    Python values are modelled as follows.
    - [str] is [string]; [a in b] on strings is [str_in a b].
    - [int] counters ([selected], [total], [idx], [n_func]) are [nat];
      an f-string prints them in decimal ([str_of_nat]).
    - A benchmark function is opaque to the runner: it receives [args],
      may change the state of the process (device, caches, its own
      output) and either returns or raises.  It is a function
      [Args -> World -> World * option PyExc] over an abstract [World].
      Benchmark functions are taken to terminate.
    - What the runner itself does is recorded as a list of [Event]s:
      a line printed on stdout, a traceback printed on stderr, and the
      call of a benchmark function together with what it raised.
    - [get_op_list] is imported from [bench_pt_op.ops]; the runner only
      iterates over its result, a sequence of [(name, func)] pairs, which
      is a parameter of [main] here, as is the result [args] of
      [parse_args]. *)

From Stdlib Require Import List String Ascii Arith Lia Bool DecimalString.
Import ListNotations.

Local Open Scope string_scope.
Local Open Scope list_scope.

(** ** Strings *)

Module PyStr.

(** [sub in s] for two Python strings: [sub] occurs in [s] at some
    offset, compared character by character. *)
Fixpoint str_in (sub s : string) : bool :=
  match s with
  | EmptyString => String.prefix sub EmptyString
  | String _ s' => String.prefix sub s || str_in sub s'
  end.

(** [str(n)] / [f"{n}"] for a non-negative [int]. *)
Definition str_of_nat (n : nat) : string :=
  NilEmpty.string_of_uint (Nat.to_uint n).

(** The declarative reading of "is a substring of". *)
Definition is_substring (sub s : string) : Prop :=
  exists pre post : string, s = (pre ++ sub ++ post)%string.

End PyStr.
Import PyStr.

(** ** Exceptions *)

(** Where the class of a raised object sits in the built-in hierarchy.
    [BaseException] has [Exception] as one child next to [SystemExit],
    [KeyboardInterrupt] and [GeneratorExit]; a user class may also derive
    from [BaseException] directly. *)
Inductive ExcClass : Type :=
| ClsException            (* Exception and everything below it *)
| ClsSystemExit (code : nat)
| ClsKeyboardInterrupt
| ClsGeneratorExit
| ClsBaseException.       (* BaseException itself or a direct subclass *)

Record PyExc : Type := mkExc
  { exc_class : ExcClass;
    exc_str : string      (* str(err) *) }.

(** [isinstance(err, Exception)], the test an [except Exception] clause
    makes. *)
Definition is_Exception (e : PyExc) : bool :=
  match exc_class e with
  | ClsException => true
  | _ => false
  end.

(** ** Configuration *)

Record Args : Type := mkArgs
  { forward_only : bool;
    only_run : option string }.

(** ** Observable behaviour *)

Inductive Event : Type :=
| Stdout (line : string)                       (* print(line) *)
| Traceback (e : PyExc)                        (* traceback.print_exc() *)
| Call (name : string) (raised : option PyExc) (* func(args) *).

Inductive Outcome (A : Type) : Type :=
| Returned (a : A)
| Raised (e : PyExc).
Arguments Returned {A} a.
Arguments Raised {A} e.

(** Names of the benchmark functions called, in call order. *)
Fixpoint invoked (tr : list Event) : list string :=
  match tr with
  | [] => []
  | Call name _ :: tr' => name :: invoked tr'
  | _ :: tr' => invoked tr'
  end.

(** The exceptions that benchmark functions raised, in order. *)
Fixpoint raised_faults (tr : list Event) : list PyExc :=
  match tr with
  | [] => []
  | Call _ (Some e) :: tr' => e :: raised_faults tr'
  | _ :: tr' => raised_faults tr'
  end.

Definition is_skipped_line (ev : Event) : bool :=
  match ev with
  | Stdout s => String.prefix "Skipped " s
  | _ => false
  end.


(** The f-strings of [main]. *)
Definition selected_line (name : string) : string :=
  ("Selected " ++ name)%string.
Definition skipped_line (name : string) : string :=
  ("Skipped " ++ name)%string.
Definition summary_line (selected total : nat) : string :=
  ("Running selected " ++ str_of_nat selected ++ "/"
     ++ str_of_nat total ++ " ops")%string.
Definition progress_line (i n_func : nat) (name : string) : string :=
  ("[" ++ str_of_nat i ++ "/" ++ str_of_nat n_func
     ++ "] Benchmarking " ++ name)%string.
Definition failed_line (name : string) (err : PyExc) : string :=
  ("Failed to benchmark " ++ name ++ ": " ++ exc_str err)%string.

Arguments selected_line : simpl never.
Arguments skipped_line : simpl never.
Arguments summary_line : simpl never.
Arguments progress_line : simpl never.
Arguments failed_line : simpl never.

(** The status the interpreter exits with after running the module as
    [__main__]: 0 when [main()] returns, the low eight bits of the int
    code of a [SystemExit] ([sys.exit(3)] exits 3, [sys.exit(256)] exits
    0), 130 after an unhandled [KeyboardInterrupt] (death by SIGINT as a
    shell reports it), 1 for any other unhandled exception. *)
Definition exit_status (r : Outcome unit) : nat :=
  match r with
  | Returned _ => 0
  | Raised e =>
      match exc_class e with
      | ClsSystemExit code => code mod 256
      | ClsKeyboardInterrupt => 130
      | _ => 1
      end
  end.

Section Runner.

(** Everything a benchmark function can read or change. *)
Variable World : Type.

Definition Runnable : Type := Args -> World -> World * option PyExc.
Definition Entry : Type := (string * Runnable)%type.

(** *** A monad for the runner: state, output and exceptions *)

Record Res (A : Type) : Type := mkRes
  { outcome : Outcome A;
    world : World;
    events : list Event }.
Arguments mkRes {A} _ _ _.
Arguments outcome {A} _.
Arguments world {A} _.
Arguments events {A} _.

Definition Run (A : Type) : Type := World -> Res A.

Definition ret {A} (a : A) : Run A :=
  fun w => mkRes (Returned a) w [].

Definition bind {A B} (m : Run A) (k : A -> Run B) : Run B :=
  fun w =>
    let r := m w in
    match outcome r with
    | Returned a =>
        let r' := k a (world r) in
        mkRes (outcome r') (world r') (events r ++ events r')
    | Raised e => mkRes (Raised e) (world r) (events r)
    end.

Notation "x <- m ;; k" := (bind m (fun x => k))
  (at level 61, m at next level, right associativity).
Notation "' p <- m ;; k" := (bind m (fun x => match x with p => k end))
  (at level 61, p pattern, m at next level, right associativity).
Notation "m ;; k" := (bind m (fun _ => k))
  (at level 61, right associativity).

Definition print (line : string) : Run unit :=
  fun w => mkRes (Returned tt) w [Stdout line].

Definition print_exc (e : PyExc) : Run unit :=
  fun w => mkRes (Returned tt) w [Traceback e].

(** [func(args)]; the value a benchmark function returns is dropped. *)
Definition call (name : string) (func : Runnable) (args : Args) : Run unit :=
  fun w =>
    let (w', r) := func args w in
    mkRes (match r with
           | None => Returned tt
           | Some e => Raised e
           end) w' [Call name r].

(** [try: body except Exception as err: handler err]. *)
Definition try_except_Exception {A} (body : Run A) (handler : PyExc -> Run A)
  : Run A :=
  fun w =>
    let r := body w in
    match outcome r with
    | Returned _ => r
    | Raised err =>
        if is_Exception err then
          let r' := handler err (world r) in
          mkRes (outcome r') (world r') (events r ++ events r')
        else r
    end.

(** [for x in l: s = body x s], the loop variables threaded as [s]. *)
Fixpoint for_each {A S} (body : A -> S -> Run S) (l : list A) (s : S)
  : Run S :=
  match l with
  | [] => ret s
  | x :: l' => s' <- body x s ;; for_each body l' s'
  end.

(** [enumerate(l)], counting from [k]. *)
Fixpoint enumerate_from {A} (k : nat) (l : list A) : list (nat * A) :=
  match l with
  | [] => []
  | x :: l' => (k, x) :: enumerate_from (S k) l'
  end.
Definition enumerate {A} (l : list A) : list (nat * A) :=
  enumerate_from 0 l.

(** *** [main] *)

(** [args.only_run is None or args.only_run in name] *)
Definition selects (args : Args) (name : string) : bool :=
  match only_run args with
  | None => true
  | Some f => str_in f name
  end.

(** The body of the first loop. *)
Definition select_one (args : Args) (it : Entry)
           (acc : list Entry * nat * nat) : Run (list Entry * nat * nat) :=
  let '(name, func) := it in
  let '(funcs, selected, total) := acc in
  ' (funcs, selected) <-
    (if selects args name then
       print (selected_line name) ;;
       ret (funcs ++ [(name, func)], selected + 1)
     else
       print (skipped_line name) ;;
       ret (funcs, selected)) ;;
  ret (funcs, selected, total + 1).

(** The first loop of [main]; yields [(funcs, selected, total)]. *)
Definition selection_pass (get_op_list : list Entry) (args : Args)
  : Run (list Entry * nat * nat) :=
  for_each (select_one args) get_op_list ([], 0, 0).

(** The body of the second loop. *)
Definition benchmark_one (n_func : nat) (args : Args)
           (it : nat * Entry) (_ : unit) : Run unit :=
  let '(idx, (name, func)) := it in
  print (progress_line (idx + 1) n_func name) ;;
  try_except_Exception
    (call name func args)
    (fun err =>
       print_exc err ;;
       print (failed_line name err)).

Definition execution_pass (funcs : list Entry) (args : Args) : Run unit :=
  let n_func := List.length funcs in
  for_each (benchmark_one n_func args) (enumerate funcs) tt.

Definition main (get_op_list : list Entry) (args : Args) : Run unit :=
  ' (funcs, selected, total) <- selection_pass get_op_list args ;;
  print (summary_line selected total) ;;
  execution_pass funcs args.

(** The execution plan in the words of the specification: the discovered
    entries whose name passes the filter, in discovery order. *)
Definition plan (get_op_list : list Entry) (args : Args) : list Entry :=
  filter (fun e => selects args (fst e)) get_op_list.

End Runner.

Arguments mkRes {World A} _ _ _.
Arguments outcome {World A} _.
Arguments world {World A} _.
Arguments events {World A} _.
Arguments ret {World A} _ _.
Arguments bind {World A B} _ _ _.
Arguments print {World} _ _.
Arguments print_exc {World} _ _.
Arguments call {World} _ _ _ _.
Arguments try_except_Exception {World A} _ _ _.
Arguments for_each {World A S} _ _ _ _.
Arguments enumerate_from {A} _ _.
Arguments enumerate {A} _.
Arguments selects _ _ : assert.
Arguments select_one {World} _ _ _ _.
Arguments selection_pass {World} _ _ _.
Arguments benchmark_one {World} _ _ _ _ _.
Arguments execution_pass {World} _ _ _.
Arguments main {World} _ _ _.
Arguments plan {World} _ _.

(** The line the selection loop prints for one entry. *)
Definition selection_event {World} (args : Args) (e : Entry World) : Event :=
  Stdout (if selects args (fst e) then selected_line (fst e)
          else skipped_line (fst e)).

(** What [benchmark_one] prints after the call, depending on what the
    benchmark function raised. *)
Definition handler_events (name : string) (raised : option PyExc)
  : list Event :=
  match raised with
  | None => []
  | Some err =>
      if is_Exception err then [Traceback err; Stdout (failed_line name err)]
      else []
  end.

(** Whether an exception leaves the [try] statement. *)
Definition escapes (raised : option PyExc) : bool :=
  match raised with
  | None => false
  | Some err => negb (is_Exception err)
  end.

(** The second loop started at index [k], over the rest of [funcs]. *)
Definition execution_loop {World} (n_func : nat) (args : Args) (k : nat)
           (l : list (Entry World)) : Run World unit :=
  for_each (benchmark_one n_func args) (enumerate_from k l) tt.

(** [r] with [evs] printed before it. *)
Definition after {World A} (evs : list Event) (r : Res World A)
  : Res World A :=
  mkRes (outcome r) (world r) (evs ++ events r).

(** The state the process is left in when the benchmark functions of [l]
    run one after the other, whatever they return or raise. *)
Definition thread_state {World} (args : Args) (l : list (Entry World))
           (w : World) : World :=
  fold_left (fun w e => fst (snd e args w)) l w.

(** The exceptions whose traceback was printed, in order. *)
Fixpoint tracebacks (tr : list Event) : list PyExc :=
  match tr with
  | [] => []
  | Traceback e :: tr' => e :: tracebacks tr'
  | _ :: tr' => tracebacks tr'
  end.

(** The benchmark functions that raised, each with what it raised. *)
Fixpoint raised_by (tr : list Event) : list (string * PyExc) :=
  match tr with
  | [] => []
  | Call name (Some e) :: tr' => (name, e) :: raised_by tr'
  | _ :: tr' => raised_by tr'
  end.

(** The printed lines that start with "Failed to benchmark ". *)
Fixpoint failure_notices (tr : list Event) : list string :=
  match tr with
  | [] => []
  | Stdout s :: tr' =>
      if String.prefix "Failed to benchmark " s then s :: failure_notices tr'
      else failure_notices tr'
  | _ :: tr' => failure_notices tr'
  end.

(** ** Example runs

    The process state is a counter of completed measurements. *)
Module Examples.

(** [RuntimeError("oom")], a [KeyboardInterrupt], and the [SystemExit]
    that [sys.exit(3)] raises. *)
Definition oom : PyExc := mkExc ClsException "oom".
Definition interrupt : PyExc := mkExc ClsKeyboardInterrupt "".
Definition sys_exit_3 : PyExc := mkExc (ClsSystemExit 3) "3".

Definition bench_ok : Runnable nat := fun _ w => (S w, None).
Definition bench_oom : Runnable nat := fun _ w => (w, Some oom).
Definition bench_interrupted : Runnable nat :=
  fun _ w => (w, Some interrupt).
Definition bench_sys_exit : Runnable nat :=
  fun _ w => (w, Some sys_exit_3).

Definition ops1 : list (Entry nat) :=
  [("attn_fwd", bench_oom); ("attn_bwd", bench_ok);
   ("linear_fwd", bench_ok)].

Definition ops_interrupted : list (Entry nat) :=
  [("attn_fwd", bench_interrupted); ("attn_bwd", bench_ok)].
Definition ops_sys_exit : list (Entry nat) :=
  [("attn_fwd", bench_sys_exit); ("attn_bwd", bench_ok)].

Definition only (f : string) : Args := mkArgs false (Some f).
Definition no_filter : Args := mkArgs false None.

End Examples.

(** ** Tensors

    [epoi/ops/xformers_attn.py] moves tensors between layouts.  A tensor
    is modelled by its shape and its elements in row-major order of that
    shape (what [t.contiguous().flatten()] holds); the elements are
    opaque.  The operations below are those of [torch] the source
    calls, on this logical view: [view], [reshape] and [contiguous] keep
    the elements as they are and only [permute] and [repeat] move
    them. *)

Module Torch.

(** The exceptions the attention code and the tensor operations raise. *)
Inductive PyError : Type :=
| ValueError (msg : string)
| NotImplementedError (msg : string)
| AssertionError (msg : string)
| AttributeError
| IndexError
| RuntimeError
| ZeroDivisionError.

Inductive Py (A : Type) : Type :=
| Ok (a : A)
| Err (e : PyError).
Arguments Ok {A} a.
Arguments Err {A} e.

Definition bind {A B} (m : Py A) (k : A -> Py B) : Py B :=
  match m with
  | Ok a => k a
  | Err e => Err e
  end.

(** [assert cond, msg] *)
Definition assert (cond : bool) (msg : string) : Py unit :=
  if cond then Ok tt else Err (AssertionError msg).

Record Tensor (A : Type) : Type := mkTensor
  { shape : list nat;
    data : list A }.
Arguments mkTensor {A} _ _.
Arguments shape {A} _.
Arguments data {A} _.

(** [t.numel()] as the shape gives it. *)
Definition numel (s : list nat) : nat := fold_right Nat.mul 1 s.

Definition well_formed {A} (t : Tensor A) : Prop :=
  List.length (data t) = numel (shape t).

(** [s[i]] on a [torch.Size], for [i >= 0]. *)
Definition shape_at (s : list nat) (i : nat) : Py nat :=
  match nth_error s i with
  | Some d => Ok d
  | None => Err IndexError
  end.

(** [t.squeeze()]: every dimension of size 1 goes. *)
Definition squeeze {A} (t : Tensor A) : Tensor A :=
  mkTensor (filter (fun d => negb (Nat.eqb d 1)) (shape t)) (data t).

(** [t.reshape(s)] for a shape [s] without [-1]. *)
Definition reshape {A} (t : Tensor A) (s : list nat) : Py (Tensor A) :=
  if Nat.eqb (numel s) (numel (shape t)) then Ok (mkTensor s (data t))
  else Err RuntimeError.

(** [t.view(s)] of a contiguous tensor, [s] without [-1]. *)
Definition view {A} (t : Tensor A) (s : list nat) : Py (Tensor A) :=
  reshape t s.

Definition contiguous {A} (t : Tensor A) : Tensor A := t.

(** [d] cut into [n] pieces of [c] elements. *)
Fixpoint chunks {A} (c n : nat) (d : list A) : list (list A) :=
  match n with
  | 0 => []
  | S n' => firstn c d :: chunks c n' (skipn c d)
  end.

(** The elements of a tensor of shape [s] tiled [reps] times along
    each dimension. *)
Fixpoint tile {A} (s reps : list nat) (d : list A) : list A :=
  match s, reps with
  | n :: s', r :: reps' =>
      List.concat (List.repeat
                (flat_map (tile s' reps') (chunks (numel s') n d)) r)
  | _, _ => d
  end.

(** [t.repeat(r0, r1, ...)]: fewer repeats than dimensions is an error, more
    repeats add leading dimensions of size 1. *)
Definition repeat {A} (t : Tensor A) (reps : list nat) : Py (Tensor A) :=
  let nd := List.length (shape t) in
  if Nat.ltb (List.length reps) nd then Err RuntimeError
  else
    let s := List.repeat 1 (List.length reps - nd) ++ shape t in
    Ok (mkTensor (map (fun p => fst p * snd p) (combine s reps))
                 (tile s reps (data t))).

(** The elements of [d] at the positions [idxs]. *)
Definition gather {A} (idxs : list nat) (d : list A) : list A :=
  flat_map (fun i => match nth_error d i with
                     | Some x => [x]
                     | None => []
                     end) idxs.

(** Where [permute((0, 2, 1, 3))] finds the elements of its result in a
    tensor of shape [(d0, d1, d2, d3)]: element [(a, c, b, e)] of the
    result is element [(a, b, c, e)] of the argument. *)
Definition permute_0213_indices (d0 d1 d2 d3 : nat) : list nat :=
  flat_map (fun a =>
    flat_map (fun c =>
      flat_map (fun b =>
        map (fun e => ((a * d1 + b) * d2 + c) * d3 + e) (seq 0 d3))
        (seq 0 d1))
      (seq 0 d2))
    (seq 0 d0).

(** [t.permute((0, 2, 1, 3))]. *)
Definition permute_0213 {A} (t : Tensor A) : Py (Tensor A) :=
  match shape t with
  | [d0; d1; d2; d3] =>
      Ok (mkTensor [d0; d2; d1; d3]
                   (gather (permute_0213_indices d0 d1 d2 d3) (data t)))
  | _ => Err RuntimeError
  end.

(** [t.size()[:-1]] and [t.size()[:-2]]. *)
Definition all_but_last (s : list nat) : list nat := removelast s.
Definition all_but_last_two (s : list nat) : list nat :=
  firstn (List.length s - 2) s.

End Torch.

(** ** The attention modules of [epoi/ops/xformers_attn.py]

    Sizes ([hidden_size], [num_attention_heads], ...) are non-negative
    ints and are modelled as [nat].  Layers ([nn.Linear], [Conv1D]) are
    records of their sizes; their weights play no role here.  What the
    source computes in floating point is a parameter: the kernel
    [attention_bmk], the dropout layers, and [int(a / b)]. *)

Module XformersAttn.

Import Torch.

Notation "x <- m ;; k" := (Torch.bind m (fun x => k))
  (at level 61, m at next level, right associativity).
Notation "m ;; k" := (Torch.bind m (fun _ => k))
  (at level 61, right associativity).

(** [a % b] on non-negative ints. *)
Definition py_mod (a b : nat) : Py nat :=
  if Nat.eqb b 0 then Err ZeroDivisionError else Ok (a mod b).

(** [a // b] on non-negative ints. *)
Definition py_floordiv (a b : nat) : Py nat :=
  if Nat.eqb b 0 then Err ZeroDivisionError else Ok (a / b).

Inductive XformersOp : Type :=
| MemoryEfficientAttentionOp
| MemoryEfficientAttentionCutlassOp
| MemoryEfficientAttentionFlashAttentionOp.

(** What [self.attn_op] is bound to. *)
Inductive AttnOp : Type :=
| use_pt_attention
| use_memory_efficient_attention (op : XformersOp).

Record Linear : Type := mkLinear
  { in_features : nat;
    out_features : nat }.

(** [Conv1D(nf, nx)] of [transformers.pytorch_utils]. *)
Record Conv1D : Type := mkConv1D
  { nf : nat;
    nx : nat }.

(** The block that ends each of the three constructors: the assertion
    that [xformers] was imported and the choice of [self.attn_op]. *)
Definition select_attn_op (xformers_installed : bool)
           (attn_op_name : option string) : Py AttnOp :=
  assert xformers_installed "xformers is not installed" ;;
  match attn_op_name with
  | None => Ok use_pt_attention
  | Some name =>
      op <- (if String.eqb name "vanilla" then
               Ok MemoryEfficientAttentionOp
             else if String.eqb name "cutlass" then
               Ok MemoryEfficientAttentionCutlassOp
             else if String.eqb name "triton" then
               Ok MemoryEfficientAttentionFlashAttentionOp
             else Err (ValueError ("Unknown attn_op_name " ++ name)%string)) ;;
      Ok (use_memory_efficient_attention op)
  end.

Definition not_a_multiple_msg (hidden_size num_attention_heads : nat)
  : string :=
  ("The hidden size (" ++ str_of_nat hidden_size
     ++ ") is not a multiple of the number of attention heads ("
     ++ str_of_nat num_attention_heads ++ ")")%string.

Definition not_divisible_msg (embed_dim num_heads : nat) : string :=
  ("`embed_dim` must be divisible by num_heads (got `embed_dim`: "
     ++ str_of_nat embed_dim ++ " and `num_heads`: "
     ++ str_of_nat num_heads ++ ").")%string.

Section Modules.

(** Tensor elements and probabilities are floats. *)
Variable Float : Type.

(** [int(a / b)]: the quotient is taken in floating point and then
    truncated. *)
Variable int_of_true_div : nat -> nat -> nat.

(** [nn.Dropout(p)], which rejects some [p]. *)
Variable Dropout : Type.
Variable nn_Dropout : Float -> Py Dropout.

(** Whether [import xformers] succeeded when the module was loaded. *)
Variable xformers_installed : bool.

(** *** [BertSelfAttention] *)

Record BertConfig : Type := mkBertConfig
  { bert_hidden_size : nat;
    bert_num_attention_heads : nat;
    bert_embedding_size : option nat;        (* absent on most configs *)
    bert_attention_probs_dropout_prob : Float;
    bert_position_embedding_type : option string;   (* may be absent *)
    bert_is_decoder : bool }.

Record BertSelfAttention : Type := mkBertSelfAttention
  { b_num_attention_heads : nat;
    b_attention_head_size : nat;
    b_all_head_size : nat;
    b_query : Linear;
    b_key : Linear;
    b_value : Linear;
    b_attention_probs_dropout_prob : Float;
    b_position_embedding_type : string;
    b_is_decoder : bool;
    b_attn_op : AttnOp }.

(** [BertSelfAttention.__init__]. *)
Definition BertSelfAttention_init (config : BertConfig)
           (position_embedding_type : option string)
           (attn_op_name : option string) : Py BertSelfAttention :=
  r <- py_mod (bert_hidden_size config) (bert_num_attention_heads config) ;;
  (if negb (Nat.eqb r 0) && match bert_embedding_size config with
                       | Some _ => false
                       | None => true
                       end
   then Err (ValueError (not_a_multiple_msg
                           (bert_hidden_size config)
                           (bert_num_attention_heads config)))
   else Ok tt) ;;
  let num_attention_heads := bert_num_attention_heads config in
  let attention_head_size :=
    int_of_true_div (bert_hidden_size config)
                    (bert_num_attention_heads config) in
  let all_head_size := num_attention_heads * attention_head_size in
  let query := mkLinear (bert_hidden_size config) all_head_size in
  let key := mkLinear (bert_hidden_size config) all_head_size in
  let value := mkLinear (bert_hidden_size config) all_head_size in
  let position_embedding_type :=
    match position_embedding_type with
    | Some t => if String.eqb t "" then
                  match bert_position_embedding_type config with
                  | Some c => c
                  | None => "absolute"%string
                  end
                else t
    | None => match bert_position_embedding_type config with
              | Some c => c
              | None => "absolute"%string
              end
    end in
  (if String.eqb position_embedding_type "relative_key"
      || String.eqb position_embedding_type "relative_key_query"
   then Err (NotImplementedError "Not implemented")
   else Ok tt) ;;
  attn_op <- select_attn_op xformers_installed attn_op_name ;;
  Ok (mkBertSelfAttention
        num_attention_heads attention_head_size all_head_size
        query key value
        (bert_attention_probs_dropout_prob config)
        position_embedding_type (bert_is_decoder config) attn_op).

(** *** [GPT2Attention] *)

Record GPT2Config : Type := mkGPT2Config
  { gpt2_hidden_size : nat;
    gpt2_num_attention_heads : nat;
    gpt2_scale_attn_weights : bool;
    gpt2_scale_attn_by_inverse_layer_idx : bool;
    gpt2_reorder_and_upcast_attn : bool;
    gpt2_attn_pdrop : Float;
    gpt2_resid_pdrop : Float }.

Record GPT2Attention : Type := mkGPT2Attention
  { g_embed_dim : nat;
    g_num_heads : nat;
    g_head_dim : nat;
    g_split_size : nat;
    g_scale_attn_weights : bool;
    g_is_cross_attention : bool;
    g_scale_attn_by_inverse_layer_idx : bool;
    g_layer_idx : option nat;
    g_reorder_and_upcast_attn : bool;
    g_c_attn : Conv1D;
    g_c_proj : Conv1D;
    g_attn_pdrop : Float;
    g_resid_drop : Float;
    g_attn_dropout : Dropout;
    g_resid_dropout : Dropout;
    g_attn_op : AttnOp }.

(** [GPT2Attention.__init__]. *)
Definition GPT2Attention_init (config : GPT2Config)
           (is_cross_attention : bool) (layer_idx : option nat)
           (attn_op_name : option string) : Py GPT2Attention :=
  let embed_dim := gpt2_hidden_size config in
  let num_heads := gpt2_num_attention_heads config in
  head_dim <- py_floordiv embed_dim num_heads ;;
  let split_size := embed_dim in
  (if negb (Nat.eqb (head_dim * num_heads) embed_dim)
   then Err (ValueError (not_divisible_msg embed_dim num_heads))
   else Ok tt) ;;
  assert (gpt2_scale_attn_weights config)
         "scale_attn_weights must be True" ;;
  assert (negb is_cross_attention)
         "cross attention is not supported for now" ;;
  assert (negb (gpt2_scale_attn_by_inverse_layer_idx config))
         "scale_attn_by_inverse_layer_idx is not supported for now" ;;
  assert (negb (gpt2_reorder_and_upcast_attn config))
         "reorder_and_upcast_attn is not supported for now" ;;
  let c_attn := mkConv1D (3 * embed_dim) embed_dim in
  let c_proj := mkConv1D embed_dim embed_dim in
  attn_dropout <- nn_Dropout (gpt2_attn_pdrop config) ;;
  resid_dropout <- nn_Dropout (gpt2_resid_pdrop config) ;;
  attn_op <- select_attn_op xformers_installed attn_op_name ;;
  Ok (mkGPT2Attention
        embed_dim num_heads head_dim split_size
        (gpt2_scale_attn_weights config) is_cross_attention
        (gpt2_scale_attn_by_inverse_layer_idx config) layer_idx
        (gpt2_reorder_and_upcast_attn config)
        c_attn c_proj
        (gpt2_attn_pdrop config) (gpt2_resid_pdrop config)
        attn_dropout resid_dropout attn_op).

(** *** [GenericSelfAttention] *)

(** The projections: one fused layer or three. *)
Inductive Projections : Type :=
| fused (qkv : Linear)
| separate (query key value : Linear).

Record GenericSelfAttention : Type := mkGenericSelfAttention
  { s_hidden_size : nat;
    s_num_attention_heads : nat;
    s_attention_head_size : nat;
    s_all_head_size : nat;
    s_fused_qkv : bool;
    s_projections : Projections;
    s_is_decoder : bool;
    s_attn_pdrop : Float;
    s_out_proj : option (Linear * Dropout);   (* only for a decoder *)
    s_attn_op : AttnOp }.

(** [GenericSelfAttention.__init__]. *)
Definition GenericSelfAttention_init
           (hidden_size num_attention_heads : nat) (is_decoder : bool)
           (attn_pdrop resid_pdrop : Float) (attn_op_name : option string)
           (fused_qkv : bool) : Py GenericSelfAttention :=
  r <- py_mod hidden_size num_attention_heads ;;
  (if negb (Nat.eqb r 0)
   then Err (ValueError (not_a_multiple_msg hidden_size num_attention_heads))
   else Ok tt) ;;
  let attention_head_size :=
    int_of_true_div hidden_size num_attention_heads in
  let all_head_size := num_attention_heads * attention_head_size in
  let projections :=
    if fused_qkv then fused (mkLinear hidden_size (3 * all_head_size))
    else separate (mkLinear hidden_size all_head_size)
                  (mkLinear hidden_size all_head_size)
                  (mkLinear hidden_size all_head_size) in
  out_proj <- (if is_decoder then
                 d <- nn_Dropout resid_pdrop ;;
                 Ok (Some (mkLinear hidden_size hidden_size, d))
               else Ok None) ;;
  attn_op <- select_attn_op xformers_installed attn_op_name ;;
  Ok (mkGenericSelfAttention
        hidden_size num_attention_heads attention_head_size all_head_size
        fused_qkv projections is_decoder attn_pdrop out_proj attn_op).

(** *** Layout helpers *)

Section Layout.

Variable A : Type.

(** [reshape_for_scores] of [BertSelfAttention] and of
    [GenericSelfAttention], given the two attributes it reads. *)
Definition reshape_for_scores (num_attention_heads attention_head_size : nat)
           (x : Tensor A) : Py (Tensor A) :=
  let new_x_shape :=
    all_but_last (shape x) ++ [num_attention_heads; attention_head_size] in
  view x new_x_shape.

(** [layout_attention_mask] of [BertSelfAttention] and of
    [GenericSelfAttention]. *)
Definition layout_attention_mask (mask : Tensor A)
           (num_attention_heads : nat) : Py (Tensor A) :=
  let mask := squeeze mask in
  d0 <- shape_at (shape mask) 0 ;;
  d1 <- shape_at (shape mask) 1 ;;
  mask <- reshape mask [d0; 1; d1] ;;
  d2 <- shape_at (shape mask) 2 ;;
  repeat mask [num_attention_heads; d2; 1].

(** [GPT2Attention._split_heads] *)
Definition _split_heads (tensor : Tensor A) (num_heads attn_head_size : nat)
  : Py (Tensor A) :=
  let new_shape := all_but_last (shape tensor) ++ [num_heads; attn_head_size] in
  view tensor new_shape.

(** [GPT2Attention._merge_heads] *)
Definition _merge_heads (tensor : Tensor A) (num_heads attn_head_size : nat)
  : Py (Tensor A) :=
  let tensor := contiguous tensor in
  let new_shape :=
    all_but_last_two (shape tensor) ++ [num_heads * attn_head_size] in
  view tensor new_shape.

(** *** [pt_attention] *)

(** The inner function [T]. *)
Definition T (t : Tensor A) : Py (Tensor A) :=
  p <- permute_0213 t ;;
  d0 <- shape_at (shape t) 0 ;;
  d2 <- shape_at (shape t) 2 ;;
  d1 <- shape_at (shape t) 1 ;;
  d3 <- shape_at (shape t) 3 ;;
  reshape p [d0 * d2; d1; d3].

(** The inner function [attention_bmk] is floating-point arithmetic on
    three tensors, a bias and a dropout rate. *)
Variable AttnBias : Type.
Variable attention_bmk :
  Tensor A -> Tensor A -> Tensor A -> AttnBias -> Float -> Py (Tensor A).

Definition pt_attention (q k v : Tensor A) (attn_bias : AttnBias) (p : Float)
  : Py (Tensor A) :=
  assert xformers_installed "xformers is not installed" ;;
  assert (Nat.eqb (List.length (shape q)) 4) EmptyString ;;
  tq <- T q ;;
  tk <- T k ;;
  tv <- T v ;;
  out <- attention_bmk tq tk tv attn_bias p ;;
  q0 <- shape_at (shape q) 0 ;;
  q2 <- shape_at (shape q) 2 ;;
  q1 <- shape_at (shape q) 1 ;;
  v3 <- shape_at (shape v) 3 ;;
  out <- reshape out [q0; q2; q1; v3] ;;
  permute_0213 out.

End Layout.

End Modules.

Arguments b_num_attention_heads {Float} _.
Arguments b_attention_head_size {Float} _.
Arguments b_all_head_size {Float} _.
Arguments b_query {Float} _.
Arguments b_key {Float} _.
Arguments b_value {Float} _.
Arguments b_position_embedding_type {Float} _.
Arguments b_attn_op {Float} _.
Arguments BertSelfAttention_init {Float} _ _ _ _ _.
Arguments g_embed_dim {Float Dropout} _.
Arguments g_num_heads {Float Dropout} _.
Arguments g_head_dim {Float Dropout} _.
Arguments g_split_size {Float Dropout} _.
Arguments g_c_attn {Float Dropout} _.
Arguments g_c_proj {Float Dropout} _.
Arguments g_scale_attn_weights {Float Dropout} _.
Arguments g_is_cross_attention {Float Dropout} _.
Arguments g_scale_attn_by_inverse_layer_idx {Float Dropout} _.
Arguments g_reorder_and_upcast_attn {Float Dropout} _.
Arguments GPT2Attention_init {Float Dropout} _ _ _ _ _ _.
Arguments s_hidden_size {Float Dropout} _.
Arguments s_num_attention_heads {Float Dropout} _.
Arguments s_attention_head_size {Float Dropout} _.
Arguments s_all_head_size {Float Dropout} _.
Arguments s_projections {Float Dropout} _.
Arguments s_out_proj {Float Dropout} _.
Arguments s_is_decoder {Float Dropout} _.
Arguments GenericSelfAttention_init {Float} _ {Dropout} _ _ _ _ _ _ _ _ _.
Arguments reshape_for_scores {A} _ _ _.
Arguments layout_attention_mask {A} _ _.
Arguments _split_heads {A} _ _ _.
Arguments _merge_heads {A} _ _ _.
Arguments T {A} _.
Arguments pt_attention {Float} _ {A AttnBias} _ _ _ _ _ _.

End XformersAttn.

(** ** Example tensors and modules *)

Module AttnExamples.

Import Torch XformersAttn.

(** A padding mask for two sequences of three positions. *)
Definition mask_2x3 : Tensor nat := mkTensor [2; 1; 1; 3] [1; 2; 3; 4; 5; 6].

(** The mask of a batch of one sequence. *)
Definition mask_1x3 : Tensor nat := mkTensor [1; 1; 1; 3] [1; 2; 3].

(** Two sequences of two positions, two heads of three features. *)
Definition qkv_2x2x2x3 : Tensor nat := mkTensor [2; 2; 2; 3] (seq 0 24).

(** Hidden states: one sequence of two positions, twelve features. *)
Definition hidden_1x2x12 : Tensor nat := mkTensor [1; 2; 12] (seq 0 24).

(** An [attention_bmk] that returns the values. *)
Definition values_bmk (tq tk tv : Tensor nat) (_ _ : unit)
  : Py (Tensor nat) := Ok tv.

(** Dropout layers that accept every rate. *)
Definition any_dropout (_ : unit) : Py unit := Ok tt.

Definition bert_base : BertConfig unit :=
  mkBertConfig unit 768 12 None tt None false.

Definition gpt2_small : GPT2Config unit :=
  mkGPT2Config unit 768 12 true false false tt tt.

End AttnExamples.

(** ** Facts about strings *)

Section StringFacts.

Lemma prefix_true_iff (a b : string) :
  String.prefix a b = true <-> exists post, b = (a ++ post)%string.
Proof.
  revert b; induction a as [|c a IH]; intros [|d b]; simpl.
  - split; [intros _; now exists EmptyString | reflexivity].
  - split; [intros _; now exists (String d b) | reflexivity].
  - split; [discriminate | intros [post H]; discriminate].
  - destruct (ascii_dec c d) as [->|Hcd].
    + rewrite IH. split; intros [post H]; exists post.
      * now rewrite H.
      * now inversion H.
    + split; [discriminate | intros [post H]; inversion H; congruence].
Qed.

Lemma str_in_true_iff (sub s : string) :
  str_in sub s = true <-> is_substring sub s.
Proof.
  unfold is_substring.
  induction s as [|c s IH]; cbn [str_in].
  - rewrite prefix_true_iff. split.
    + intros [post H]. exists EmptyString, post. exact H.
    + intros [pre [post H]]. destruct pre; [|discriminate].
      exists post. exact H.
  - rewrite orb_true_iff, IH, prefix_true_iff. split.
    + intros [[post H] | [pre [post H]]].
      * exists EmptyString, post. exact H.
      * exists (String c pre), post. simpl. now rewrite H.
    + intros [pre [post H]]. destruct pre as [|d pre]; simpl in H.
      * left. now exists post.
      * right. inversion H. now exists pre, post.
Qed.

Lemma str_in_empty (s : string) : str_in EmptyString s = true.
Proof. destruct s; reflexivity. Qed.

Lemma skipped_line_is_skipped (name : string) :
  is_skipped_line (Stdout (skipped_line name)) = true.
Proof.
  unfold is_skipped_line, skipped_line.
  apply prefix_true_iff. now exists name.
Qed.

Lemma selected_line_not_skipped (name : string) :
  is_skipped_line (Stdout (selected_line name)) = false.
Proof. reflexivity. Qed.

End StringFacts.

(** ** Facts about event lists *)

Section EventFacts.

Lemma invoked_app (a b : list Event) :
  invoked (a ++ b) = invoked a ++ invoked b.
Proof.
  induction a as [|[l|e|name r] a IH]; simpl; auto.
  now rewrite IH.
Qed.

Lemma raised_faults_app (a b : list Event) :
  raised_faults (a ++ b) = raised_faults a ++ raised_faults b.
Proof.
  induction a as [|[l|e|name [e'|]] a IH]; simpl; auto.
  now rewrite IH.
Qed.

Lemma invoked_handler_events (name : string) (r : option PyExc) :
  invoked (handler_events name r) = [].
Proof. destruct r as [e|]; simpl; [destruct (is_Exception e)|]; reflexivity. Qed.

Lemma raised_faults_handler_events (name : string) (r : option PyExc) :
  raised_faults (handler_events name r) = [].
Proof. destruct r as [e|]; simpl; [destruct (is_Exception e)|]; reflexivity. Qed.

(** A call found in [hs ++ t] lies in [t] when [hs] holds no call. *)
Lemma split_after_quiet (hs t pre post : list Event) name r :
  invoked hs = [] ->
  hs ++ t = pre ++ Call name r :: post ->
  exists pre', pre = hs ++ pre' /\ t = pre' ++ Call name r :: post.
Proof.
  revert pre; induction hs as [|h hs IH]; intros pre Hq H; simpl in *.
  - now exists pre.
  - destruct pre as [|p pre]; simpl in H.
    + inversion H; subst. discriminate.
    + inversion H; subst.
      destruct (IH pre) as [pre' [-> Ht]]; auto.
      * destruct p; auto; discriminate.
      * now exists pre'.
Qed.

End EventFacts.

(** ** The two loops of [main] *)

Section RunnerFacts.

Variable World : Type.
Implicit Types (w : World) (args : Args) (l ops : list (Entry World)).

Lemma select_one_spec args name func funcs selected total w :
  select_one args (name, func) (funcs, selected, total) w =
  mkRes (Returned (if selects args name
                   then (funcs ++ [(name, func)], selected + 1, total + 1)
                   else (funcs, selected, total + 1)))
        w [selection_event args (name, func)].
Proof.
  unfold select_one, selection_event, bind, print, ret. cbn [fst].
  destruct (selects args name); reflexivity.
Qed.

Lemma select_loop_spec args ops funcs selected total w :
  for_each (select_one args) ops (funcs, selected, total) w =
  mkRes (Returned (funcs ++ plan ops args,
                   selected + List.length (plan ops args),
                   total + List.length ops))
        w (map (selection_event args) ops).
Proof.
  revert funcs selected total.
  induction ops as [|[name func] ops IH]; intros funcs selected total.
  - simpl. unfold ret. now rewrite app_nil_r, !Nat.add_0_r.
  - cbn [for_each]. unfold bind. rewrite select_one_spec.
    cbn [outcome world events map]. unfold plan. cbn [filter fst].
    fold (plan ops args).
    destruct (selects args name); rewrite IH; cbn [outcome world events].
    + rewrite <- app_assoc. cbn [app List.length].
      now replace (selected + 1 + List.length (plan ops args))
        with (selected + S (List.length (plan ops args))) by lia;
        replace (total + 1 + List.length ops)
          with (total + S (List.length ops)) by lia.
    + cbn [app List.length].
      now replace (total + 1 + List.length ops)
        with (total + S (List.length ops)) by lia.
Qed.

Lemma selection_pass_spec args ops w :
  selection_pass ops args w =
  mkRes (Returned (plan ops args, List.length (plan ops args),
                   List.length ops))
        w (map (selection_event args) ops).
Proof. unfold selection_pass. now rewrite select_loop_spec. Qed.

(** One turn of the second loop. *)
Lemma benchmark_one_spec n_func args k name func w :
  benchmark_one n_func args (k, (name, func)) tt w =
  let (w', r) := func args w in
  mkRes (match r with
         | Some e => if is_Exception e then Returned tt else Raised e
         | None => Returned tt
         end)
        w' (Stdout (progress_line (S k) n_func name)
              :: Call name r :: handler_events name r).
Proof.
  unfold benchmark_one.
  unfold bind, print, print_exc, try_except_Exception, call.
  cbn [outcome world events]. rewrite Nat.add_1_r.
  destruct (func args w) as [w' [e|]];
    cbn [outcome world events handler_events]; [|reflexivity].
  destruct (is_Exception e); reflexivity.
Qed.

Lemma execution_loop_cons n_func args k name func l w :
  execution_loop n_func args k ((name, func) :: l) w =
  let (w', r) := func args w in
  let head := Stdout (progress_line (S k) n_func name)
                :: Call name r :: handler_events name r in
  if escapes r then
    mkRes (match r with Some e => Raised e | None => Returned tt end)
          w' head
  else after head (execution_loop n_func args (S k) l w').
Proof.
  unfold execution_loop. cbn [enumerate_from for_each].
  unfold bind. rewrite benchmark_one_spec.
  destruct (func args w) as [w' [e|]];
    cbn [outcome world events escapes]; [|reflexivity].
  destruct (is_Exception e); reflexivity.
Qed.

Lemma execution_loop_nil n_func args k w :
  execution_loop n_func args k [] w = mkRes (Returned tt) w [].
Proof. reflexivity. Qed.

Lemma main_spec args ops w :
  main ops args w =
  after (map (selection_event args) ops
           ++ [Stdout (summary_line (List.length (plan ops args))
                                    (List.length ops))])
        (execution_loop (List.length (plan ops args)) args 0
                        (plan ops args) w).
Proof.
  unfold main, bind, print. rewrite selection_pass_spec.
  cbn [outcome world events]. unfold after, execution_pass, execution_loop,
                                enumerate.
  now rewrite <- app_assoc.
Qed.

End RunnerFacts.


(** ** Properties of the execution loop *)

Section ExecutionFacts.

Variable World : Type.
Implicit Types (w : World) (args : Args) (l ops : list (Entry World)).

(** The calls made are an initial segment of the list walked. *)
Lemma execution_loop_invoked_prefix n_func args l : forall k w,
  exists j, invoked (events (execution_loop n_func args k l w))
            = firstn j (map fst l).
Proof.
  induction l as [|[name func] l IH]; intros k w.
  - exists 0. reflexivity.
  - rewrite execution_loop_cons.
    destruct (func args w) as [w' r]. cbv zeta.
    destruct (escapes r).
    + exists 1. cbn [events invoked map fst firstn].
      now rewrite invoked_handler_events.
    + destruct (IH (S k) w') as [j Hj]. exists (S j).
      unfold after. cbn [events invoked app map fst firstn].
      now rewrite invoked_app, invoked_handler_events, Hj.
Qed.


(** When nothing but [Exception]s is raised the loop walks the whole
    list and falls through. *)
Lemma execution_loop_all_caught n_func args l : forall k w,
  forallb is_Exception
          (raised_faults (events (execution_loop n_func args k l w))) = true ->
  outcome (execution_loop n_func args k l w) = Returned tt
  /\ invoked (events (execution_loop n_func args k l w)) = map fst l.
Proof.
  induction l as [|[name func] l IH]; intros k w.
  - intros _. split; reflexivity.
  - rewrite execution_loop_cons.
    destruct (func args w) as [w' r]. cbv zeta.
    destruct r as [e|]; cbn [escapes].
    + destruct (is_Exception e) eqn:He; cbn [negb].
      * unfold after. cbn [outcome events raised_faults invoked app].
        rewrite raised_faults_app, raised_faults_handler_events.
        rewrite invoked_app, invoked_handler_events.
        cbn [app forallb]. rewrite He. cbn [andb]. intros H.
        destruct (IH (S k) w' H) as [Ho Hi]. split; [exact Ho|].
        cbn [map fst]. now rewrite Hi.
      * cbn [events raised_faults forallb handler_events].
        rewrite He. cbn [raised_faults forallb]. rewrite ?He. discriminate.
    + unfold after. cbn [outcome events raised_faults invoked app
                           handler_events].
      intros H. destruct (IH (S k) w' H) as [Ho Hi]. split; [exact Ho|].
      cbn [map fst]. now rewrite Hi.
Qed.

(** Where a call sits in the output of the loop, and what follows it. *)
Lemma execution_loop_call_inv n_func args l : forall k w pre name r post,
  events (execution_loop n_func args k l w) = pre ++ Call name r :: post ->
  let j := List.length (invoked pre) in
  exists func pre0 w0 w1,
    nth_error l j = Some (name, func)
    /\ pre = pre0 ++ [Stdout (progress_line (S (k + j)) n_func name)]
    /\ func args w0 = (w1, r)
    /\ (escapes r = true ->
        post = []
        /\ outcome (execution_loop n_func args k l w)
           = match r with Some e => Raised e | None => Returned tt end)
    /\ (escapes r = false ->
        let rest := execution_loop n_func args (S (k + j))
                                   (skipn (S j) l) w1 in
        post = handler_events name r ++ events rest
        /\ outcome (execution_loop n_func args k l w) = outcome rest
        /\ world (execution_loop n_func args k l w) = world rest).
Proof.
  induction l as [|[name0 func0] l IH]; intros k w pre name r post H.
  - cbn in H. destruct pre; discriminate.
  - rewrite execution_loop_cons in *.
    destruct (func0 args w) as [w' r0] eqn:Ef. cbv zeta in *.
    destruct (escapes r0) eqn:Esc.
    + assert (Hh : handler_events name0 r0 = []).
      { destruct r0 as [e|]; [|discriminate]. cbn in *.
        now destruct (is_Exception e). }
      rewrite Hh in *. cbn [events outcome world] in *.
      destruct pre as [|p [|p2 pre]]; cbn [app] in H.
      * discriminate.
      * injection H as Hp Hn Hr Hpost. subst p name0 r0 post.
        cbn [invoked List.length nth_error].
        exists func0, [], w, w'. rewrite Nat.add_0_r.
        repeat split; auto; congruence.
      * injection H as _ _ H. destruct pre; discriminate.
    + unfold after in *. cbn [events outcome world] in *.
      destruct pre as [|p [|p2 pre]]; cbn [app] in H.
      * discriminate.
      * injection H as Hp Hn Hr Hpost. subst p name0 r0 post.
        cbn [invoked List.length nth_error skipn].
        exists func0, [], w, w'. rewrite Nat.add_0_r.
        repeat split; auto; congruence.
      * injection H as Hp Hp2 H. subst p p2.
        destruct (split_after_quiet _ _ _ _ _ _
                    (invoked_handler_events name0 r0) H) as [pre' [-> Hrest]].
        destruct (IH (S k) w' pre' name r post Hrest)
          as (func & pre0 & w0 & w1 & Hnth & Hpre & Hf & Hesc & Hcont).
        cbn [invoked]. rewrite invoked_app, invoked_handler_events.
        cbn [app List.length nth_error skipn].
        exists func,
          (Stdout (progress_line (S k) n_func name0)
             :: Call name0 r0 :: handler_events name0 r0 ++ pre0),
          w0, w1.
        replace (k + S (List.length (invoked pre')))
          with (S k + List.length (invoked pre')) by lia.
        split; [exact Hnth|].
        split; [rewrite Hpre at 1; cbn [app]; now rewrite <- app_assoc|].
        split; [exact Hf|].
        split; [exact Hesc | exact Hcont].
Qed.

End ExecutionFacts.

(** ** What the loops print *)

Section OutputFacts.

Variable World : Type.
Implicit Types (w : World) (args : Args) (l ops : list (Entry World)).





Lemma invoked_selection_events args ops :
  invoked (map (selection_event args) ops) = [].
Proof. induction ops as [|e ops IH]; [reflexivity | exact IH]. Qed.


(** Selected and skipped entries add up to the entries discovered. *)
Lemma skipped_lines_count args ops :
  List.length (plan ops args)
  + List.length (filter is_skipped_line (map (selection_event args) ops))
  = List.length ops.
Proof.
  induction ops as [|[name func] ops IH]; [reflexivity|].
  unfold plan in *. cbn [map filter fst]. unfold selection_event at 1.
  cbn [fst]. destruct (selects args name).
  - rewrite selected_line_not_skipped. cbn [List.length]. lia.
  - rewrite skipped_line_is_skipped. cbn [List.length]. lia.
Qed.


Lemma plan_no_filter fo ops : plan ops (mkArgs fo None) = ops.
Proof.
  unfold plan, selects. cbn [only_run].
  induction ops as [|e ops IH]; [reflexivity|]. cbn [filter].
  now rewrite IH.
Qed.

Lemma plan_empty_filter fo ops :
  plan ops (mkArgs fo (Some EmptyString)) = ops.
Proof.
  unfold plan, selects. cbn [only_run].
  induction ops as [|e ops IH]; [reflexivity|]. cbn [filter].
  now rewrite str_in_empty, IH.
Qed.

(** The stdout lines of the execution loop are progress lines carrying
    [n_func] and failure notices. *)
Lemma execution_loop_stdout n_func args l : forall k w s,
  In (Stdout s) (events (execution_loop n_func args k l w)) ->
  (exists i name, k < i <= k + List.length l
                  /\ s = progress_line i n_func name)
  \/ (exists name e, s = failed_line name e).
Proof.
  induction l as [|[name func] l IH]; intros k w s H.
  - contradiction.
  - rewrite execution_loop_cons in H.
    destruct (func args w) as [w' r]. cbv zeta in H.
    assert (Hhead : In (Stdout s) (handler_events name r) ->
                    exists name e, s = failed_line name e).
    { destruct r as [e|]; cbn [handler_events]; [|contradiction].
      destruct (is_Exception e); [|contradiction].
      intros [Hx|[Hx|[]]]; [discriminate|].
      injection Hx as <-. now exists name, e. }
    assert (Hfirst : exists i name0, k < i <= k + List.length ((name, func) :: l)
                               /\ progress_line (S k) n_func name
                                  = progress_line i n_func name0).
    { exists (S k), name. cbn [List.length]. split; [lia | reflexivity]. }
    destruct (escapes r).
    + cbn [events] in H. destruct H as [H|[H|H]].
      * injection H as <-. left. exact Hfirst.
      * discriminate.
      * right. auto.
    + unfold after in H. cbn [events app] in H.
      destruct H as [H|[H|H]].
      * injection H as <-. left. exact Hfirst.
      * discriminate.
      * apply in_app_or in H. destruct H as [H|H]; [right; auto|].
        destruct (IH _ _ _ H) as [(i & name0 & Hi & ->)|Hf]; [left|right; auto].
        exists i, name0. cbn [List.length]. split; [lia | reflexivity].
Qed.


(** A call in the output of [main] lies in the part the execution loop
    produced. *)
Lemma main_call_inv args ops w pre name r post :
  events (main ops args w) = pre ++ Call name r :: post ->
  exists pre',
    pre = (map (selection_event args) ops
             ++ [Stdout (summary_line (List.length (plan ops args))
                                      (List.length ops))]) ++ pre'
    /\ invoked pre = invoked pre'
    /\ events (execution_loop (List.length (plan ops args)) args 0
                              (plan ops args) w)
       = pre' ++ Call name r :: post.
Proof.
  rewrite main_spec. unfold after. cbn [events]. intros H.
  apply split_after_quiet in H.
  - destruct H as [pre' [-> H]]. exists pre'. split; [reflexivity|].
    split; [|exact H].
    now rewrite !invoked_app, invoked_selection_events.
  - now rewrite invoked_app, invoked_selection_events.
Qed.

Lemma quiet_no_faults (evs : list Event) :
  invoked evs = [] -> raised_faults evs = [].
Proof.
  induction evs as [|[s|e|name r] evs IH]; cbn; auto; discriminate.
Qed.

Lemma main_invoked args ops w :
  invoked (events (main ops args w))
  = invoked (events (execution_loop (List.length (plan ops args)) args 0
                                    (plan ops args) w)).
Proof.
  rewrite main_spec. unfold after. cbn [events].
  now rewrite !invoked_app, invoked_selection_events.
Qed.

Lemma main_raised_faults args ops w :
  raised_faults (events (main ops args w))
  = raised_faults (events (execution_loop (List.length (plan ops args))
                                          args 0 (plan ops args) w)).
Proof.
  rewrite main_spec. unfold after. cbn [events].
  rewrite raised_faults_app, quiet_no_faults; [reflexivity|].
  now rewrite invoked_app, invoked_selection_events.
Qed.

Lemma main_outcome args ops w :
  outcome (main ops args w)
  = outcome (execution_loop (List.length (plan ops args)) args 0
                            (plan ops args) w).
Proof. now rewrite main_spec. Qed.

Lemma skipn_nth_error {A} (l : list A) : forall i x,
  nth_error l i = Some x -> skipn i l = x :: skipn (S i) l.
Proof.
  induction l as [|y l IH]; intros [|i] x H; try discriminate.
  - now injection H as ->.
  - cbn [skipn]. now apply IH.
Qed.

End OutputFacts.

(** ** The selection pass *)

Section SelectionClaims.

Variable World : Type.
Implicit Types (w : World) (args : Args) (ops : list (Entry World)).

(** C1.  The selection pass returns, in discovery order, exactly the
    entries whose name has [only_run] as a substring, or all of them
    when [only_run] is [None]; without a filter the plan is the whole
    discovery sequence and [selected = total]. *)
Theorem selection_filter_correct ops args w :
  outcome (selection_pass ops args w)
  = Returned (filter (fun e => selects args (fst e)) ops,
              List.length (plan ops args), List.length ops)
  /\ (forall name func,
         In (name, func) (plan ops args) <->
         In (name, func) ops
         /\ (only_run args = None
             \/ exists f, only_run args = Some f /\ is_substring f name))
  /\ (forall fo,
         outcome (selection_pass ops (mkArgs fo None) w)
         = Returned (ops, List.length ops, List.length ops)).
Proof.
  split; [now rewrite selection_pass_spec|]. split.
  - intros name func. unfold plan. rewrite filter_In. cbn [fst].
    unfold selects. destruct (only_run args) as [f|].
    + rewrite str_in_true_iff. split.
      * intros [Hin Hs]. split; [exact Hin|]. right. now exists f.
      * intros [Hin [Hn|[f' [Hf Hs]]]]; [discriminate|].
        injection Hf as <-. now split.
    + split; [intros [Hin _]; split; auto | intros [Hin _]; now split].
  - intros fo. now rewrite selection_pass_spec, plan_no_filter.
Qed.


(** C8.  Selection does not depend on the state of the process or on
    [forward_only] and leaves the state as it was: two runs on the same
    discovery sequence and filter give the same plan, the same counts
    and the same printed lines, also when one follows the other. *)
Theorem selection_deterministic ops f fo1 fo2 w1 w2 :
  outcome (selection_pass ops (mkArgs fo1 f) w1)
  = outcome (selection_pass ops (mkArgs fo2 f) w2)
  /\ events (selection_pass ops (mkArgs fo1 f) w1)
     = events (selection_pass ops (mkArgs fo2 f) w2)
  /\ world (selection_pass ops (mkArgs fo1 f) w1) = w1
  /\ let twice :=
       bind (selection_pass ops (mkArgs fo1 f))
            (fun first =>
               bind (selection_pass ops (mkArgs fo1 f))
                    (fun second => ret (first, second))) in
     exists result lines,
       outcome (twice w1) = Returned (result, result)
       /\ events (twice w1) = lines ++ lines
       /\ events (selection_pass ops (mkArgs fo1 f) w1) = lines.
Proof.
  assert (Hp : plan ops (mkArgs fo1 f) = plan ops (mkArgs fo2 f))
    by reflexivity.
  assert (He : map (selection_event (mkArgs fo1 f)) ops
               = map (selection_event (mkArgs fo2 f)) ops) by reflexivity.
  rewrite !selection_pass_spec. cbn [outcome events world].
  split; [now rewrite Hp|]. split; [exact He|]. split; [reflexivity|].
  cbv zeta. unfold bind, ret. rewrite ?selection_pass_spec.
  cbn [outcome events world]. rewrite ?selection_pass_spec.
  cbn [outcome events world].
  eexists _, _. split; [reflexivity|]. split; [|reflexivity].
  now rewrite app_nil_r.
Qed.

(** C9.  An empty string as filter selects every entry: the selection
    pass returns and prints what it does without a filter. *)
Theorem empty_filter_selects_all ops fo w :
  selection_pass ops (mkArgs fo (Some EmptyString)) w
  = selection_pass ops (mkArgs fo None) w
  /\ outcome (selection_pass ops (mkArgs fo (Some EmptyString)) w)
     = Returned (ops, List.length ops, List.length ops)
  /\ events (selection_pass ops (mkArgs fo (Some EmptyString)) w)
     = map (fun e => Stdout (selected_line (fst e))) ops.
Proof.
  rewrite !selection_pass_spec, plan_empty_filter, plan_no_filter.
  assert (He : forall a, (forall name, selects a name = true) ->
               map (selection_event a) ops
               = map (fun e : Entry World => Stdout (selected_line (fst e))) ops).
  { intros a Ha. apply map_ext. intros e. unfold selection_event.
    now rewrite Ha. }
  rewrite (He (mkArgs fo (Some EmptyString))), (He (mkArgs fo None)).
  - repeat split.
  - reflexivity.
  - intros name. apply str_in_empty.
Qed.

End SelectionClaims.

(** ** The execution pass *)

Section ExecutionClaims.

Variable World : Type.
Implicit Types (w : World) (args : Args) (ops : list (Entry World)).


(** C2, amended.  When every exception raised by a benchmark function
    during the run is an instance of [Exception], every planned entry is
    called exactly once, in plan order, however many of them raise, and
    [main] returns. *)
Theorem fault_isolation_for_exceptions ops args w :
  forallb is_Exception (raised_faults (events (main ops args w))) = true ->
  invoked (events (main ops args w)) = map fst (plan ops args)
  /\ List.length (invoked (events (main ops args w)))
     = List.length (plan ops args)
  /\ outcome (main ops args w) = Returned tt.
Proof.
  rewrite main_raised_faults, main_invoked, main_outcome. intros H.
  destruct (execution_loop_all_caught _ _ _ _ _ _ H) as [Ho Hi].
  rewrite Hi, length_map. auto.
Qed.

(** C3, amended.  An exception raised by a benchmark function that is an
    instance of [Exception] is caught: the runner prints its traceback,
    then "Failed to benchmark <name>: <str(err)>", and goes on with the
    rest of the plan, starting with the progress line and the call of
    the next planned entry.  An exception that is not an instance of
    [Exception] ends the run: nothing more is printed and [main] raises
    it. *)
Theorem fault_caught_and_reported ops args w pre name err post :
  events (main ops args w) = pre ++ Call name (Some err) :: post ->
  let n_func := List.length (plan ops args) in
  let j := List.length (invoked pre) in
  (is_Exception err = true ->
   (exists w1,
       let rest := execution_loop n_func args (S j)
                                  (skipn (S j) (plan ops args)) w1 in
       post = Traceback err :: Stdout (failed_line name err) :: events rest
       /\ outcome (main ops args w) = outcome rest)
   /\ (forall name' func',
          nth_error (plan ops args) (S j) = Some (name', func') ->
          exists r' post',
            post = Traceback err :: Stdout (failed_line name err)
                     :: Stdout (progress_line (S (S j)) n_func name')
                     :: Call name' r' :: post'))
  /\ (is_Exception err = false ->
      post = [] /\ outcome (main ops args w) = Raised err).
Proof.
  intros H. cbv zeta.
  destruct (main_call_inv _ _ _ _ _ _ _ _ H) as (pre' & Hpre & Hinv & Hloop).
  destruct (execution_loop_call_inv _ _ _ _ _ _ _ _ _ _ Hloop)
    as (func & pre0 & w0 & w1 & Hnth & Hpre0 & Hf & Hesc & Hcont).
  rewrite Hinv. rewrite main_spec. unfold after. cbn [outcome].
  cbn [escapes handler_events Nat.add] in *. split.
  - intros He. rewrite He in *. cbn [negb app] in Hcont.
    destruct (Hcont eq_refl) as (Hpost & Hout & _). split.
    + exists w1. cbv zeta. now split.
    + intros name' func' Hnext. rewrite Hpost.
      rewrite (skipn_nth_error _ _ _ Hnext), execution_loop_cons.
      destruct (func' args w1) as [w2 r']. cbv zeta.
      exists r'. destruct (escapes r'); unfold after; cbn [events app];
        eexists; reflexivity.
  - intros He. rewrite He in *. cbn [negb] in Hesc.
    destruct (Hesc eq_refl) as [Hpost Hout]. now split.
Qed.

(** C7, amended.  When every exception raised by a benchmark function
    during the run is an instance of [Exception], [main] returns after
    the last planned entry and the process exits with status 0, however
    many entries raised. *)
Theorem exit_zero_when_faults_are_exceptions ops args w :
  forallb is_Exception (raised_faults (events (main ops args w))) = true ->
  outcome (main ops args w) = Returned tt
  /\ exit_status (outcome (main ops args w)) = 0.
Proof.
  rewrite main_raised_faults, main_outcome. intros H.
  destruct (execution_loop_all_caught _ _ _ _ _ _ H) as [Ho _].
  now rewrite Ho.
Qed.

(** C5.  With a filter that occurs in no entry name the plan is empty:
    every entry is reported as skipped, the summary shows 0 selected out
    of the number of entries discovered, no benchmark function is
    called, the state is untouched and [main] returns. *)
Theorem zero_match_filter ops args w f :
  only_run args = Some f ->
  (forall name func, In (name, func) ops -> ~ is_substring f name) ->
  outcome (selection_pass ops args w)
  = Returned ([], 0, List.length ops)
  /\ events (main ops args w)
     = map (fun e => Stdout (skipped_line (fst e))) ops
         ++ [Stdout (summary_line 0 (List.length ops))]
  /\ invoked (events (main ops args w)) = []
  /\ world (main ops args w) = w
  /\ outcome (main ops args w) = Returned tt.
Proof.
  intros Hf Hno.
  assert (Hsel : forall name func, In (name, func) ops ->
                                   selects args name = false).
  { intros name func Hin. unfold selects. rewrite Hf.
    destruct (str_in f name) eqn:E; [|reflexivity].
    apply str_in_true_iff in E. now apply Hno in Hin. }
  assert (Hplan : plan ops args = []).
  { unfold plan. clear Hno. induction ops as [|[name func] l IH];
      [reflexivity|].
    cbn [filter fst]. rewrite (Hsel name func) by now left.
    apply IH. intros n g Hin. apply (Hsel n g). now right. }
  assert (Hev : map (selection_event args) ops
                = map (fun e : Entry World => Stdout (skipped_line (fst e))) ops).
  { apply map_ext_in. intros [name func] Hin. unfold selection_event.
    cbn [fst]. now rewrite (Hsel name func Hin). }
  rewrite main_spec, selection_pass_spec, Hplan.
  unfold after. cbn [outcome world events List.length execution_loop
                       enumerate_from for_each ret].
  rewrite app_nil_r, invoked_app, invoked_selection_events.
  repeat split. now rewrite Hev.
Qed.

(** C10.  After the selection pass [selected] is the length of the
    plan, [total] the length of the discovery sequence, [selected] plus
    the number of "Skipped" lines is [total], so [selected <= total];
    the summary prints these two numbers, and every progress line
    printed afterwards is "[i/selected] ..." with [1 <= i <= selected]. *)
Theorem counts_consistent ops args w :
  exists funcs selected total rest,
    outcome (selection_pass ops args w) = Returned (funcs, selected, total)
    /\ funcs = plan ops args
    /\ selected = List.length funcs
    /\ total = List.length ops
    /\ selected
       + List.length (filter is_skipped_line
                             (events (selection_pass ops args w)))
       = total
    /\ selected <= total
    /\ events (main ops args w)
       = events (selection_pass ops args w)
           ++ Stdout (summary_line selected total) :: rest
    /\ rest = events (execution_pass funcs args w)
    /\ (forall s, In (Stdout s) rest ->
          (exists i name, 1 <= i <= selected
                          /\ s = progress_line i selected name)
          \/ (exists name e, s = failed_line name e)).
Proof.
  exists (plan ops args), (List.length (plan ops args)), (List.length ops),
    (events (execution_pass (plan ops args) args w)).
  rewrite main_spec, selection_pass_spec. unfold after.
  cbn [outcome events].
  assert (Hc := skipped_lines_count World args ops).
  repeat split; auto; try lia.
  - now rewrite <- app_assoc.
  - intros s Hs.
    destruct (execution_loop_stdout _ _ _ _ _ _ _ Hs)
      as [(i & name & Hi & ->)|Hfail]; [left|right; exact Hfail].
    exists i, name. split; [lia | reflexivity].
Qed.

End ExecutionClaims.

(** ** The claims on concrete runs *)

Module ConcreteRuns.

Import Examples.

(** C2 at the run of the specification's example: [attn_fwd] raises
    [RuntimeError("oom")], [attn_bwd] still runs. *)
Lemma fault_isolation_for_exceptions_witness :
  forallb is_Exception
          (raised_faults (events (main ops1 (only "attn") 0))) = true
  /\ raised_faults (events (main ops1 (only "attn") 0)) = [oom]
  /\ invoked (events (main ops1 (only "attn") 0)) = ["attn_fwd"; "attn_bwd"]
  /\ outcome (main ops1 (only "attn") 0) = Returned tt.
Proof.
  split; [reflexivity|]. split; [reflexivity|].
  destruct (fault_isolation_for_exceptions nat ops1 (only "attn") 0 eq_refl)
    as (Hi & _ & Ho).
  split; [exact Hi | exact Ho].
Defined.

(** C2 as stated fails: the first of two planned entries is interrupted
    ([KeyboardInterrupt]); the second one is never called and [main]
    does not complete. *)
Lemma fault_isolation_counterexample :
  map fst (plan ops_interrupted no_filter) = ["attn_fwd"; "attn_bwd"]
  /\ raised_faults (events (main ops_interrupted no_filter 0)) = [interrupt]
  /\ invoked (events (main ops_interrupted no_filter 0)) = ["attn_fwd"]
  /\ ~ In "attn_bwd" (invoked (events (main ops_interrupted no_filter 0)))
  /\ outcome (main ops_interrupted no_filter 0) = Raised interrupt.
Proof.
  repeat split. cbn. intros [H|[]]. discriminate.
Qed.

(** C3 at the run of the specification's example. *)
Lemma fault_caught_and_reported_witness :
  let pre := [Stdout "Selected attn_fwd"; Stdout "Selected attn_bwd";
              Stdout "Skipped linear_fwd"; Stdout "Running selected 2/3 ops";
              Stdout "[1/2] Benchmarking attn_fwd"] in
  let post := [Traceback oom; Stdout "Failed to benchmark attn_fwd: oom";
               Stdout "[2/2] Benchmarking attn_bwd"; Call "attn_bwd" None] in
  events (main ops1 (only "attn") 0)
  = pre ++ Call "attn_fwd" (Some oom) :: post
  /\ (exists r' post',
         post = Traceback oom :: Stdout (failed_line "attn_fwd" oom)
                  :: Stdout (progress_line 2 2 "attn_bwd")
                  :: Call "attn_bwd" r' :: post').
Proof.
  intros pre post. split; [reflexivity|].
  destruct (fault_caught_and_reported nat ops1 (only "attn") 0
              pre "attn_fwd" oom post eq_refl) as [Hcaught _].
  destruct (Hcaught eq_refl) as [_ Hnext].
  exact (Hnext "attn_bwd" bench_ok eq_refl).
Defined.

(** C3 as stated fails: a benchmark function that calls [sys.exit(3)]
    raises [SystemExit], which [except Exception] does not catch.  No
    traceback and no failure notice are printed, the next planned entry
    is not reached and [main] raises the exception. *)
Lemma fault_escalation_counterexample :
  events (main ops_sys_exit no_filter 0)
  = [Stdout "Selected attn_fwd"; Stdout "Selected attn_bwd";
     Stdout "Running selected 2/2 ops";
     Stdout "[1/2] Benchmarking attn_fwd";
     Call "attn_fwd" (Some sys_exit_3)]
  /\ outcome (main ops_sys_exit no_filter 0) = Raised sys_exit_3.
Proof. split; reflexivity. Qed.

(** C5 at a filter that differs from the names only in case. *)
Lemma zero_match_filter_witness :
  only_run (only "Attn") = Some "Attn"
  /\ (forall name func, In (name, func) ops1 -> ~ is_substring "Attn" name)
  /\ events (main ops1 (only "Attn") 0)
     = [Stdout "Skipped attn_fwd"; Stdout "Skipped attn_bwd";
        Stdout "Skipped linear_fwd"; Stdout "Running selected 0/3 ops"]
  /\ outcome (main ops1 (only "Attn") 0) = Returned tt.
Proof.
  assert (Hno : forall name func,
             In (name, func) ops1 -> ~ is_substring "Attn" name).
  { intros name func [H|[H|[H|[]]]]; injection H as <- _;
      intros Hs; apply str_in_true_iff in Hs; discriminate. }
  split; [reflexivity|]. split; [exact Hno|].
  destruct (zero_match_filter nat ops1 (only "Attn") 0 "Attn" eq_refl Hno)
    as (_ & Hev & _ & _ & Ho).
  split; [exact Hev | exact Ho].
Defined.

(** C7 at a run without filter in which one of three entries fails. *)
Lemma exit_zero_when_faults_are_exceptions_witness :
  forallb is_Exception
          (raised_faults (events (main ops1 no_filter 0))) = true
  /\ List.length (raised_faults (events (main ops1 no_filter 0))) = 1
  /\ exit_status (outcome (main ops1 no_filter 0)) = 0.
Proof.
  split; [reflexivity|]. split; [reflexivity|].
  exact (proj2 (exit_zero_when_faults_are_exceptions
                  nat ops1 no_filter 0 eq_refl)).
Defined.

(** C7 as stated fails: the only planned entry calls [sys.exit(3)];
    [main] does not return and the process exits with status 3. *)
Lemma exit_status_counterexample :
  outcome (main [("attn_fwd", bench_sys_exit)] no_filter 0)
  = Raised sys_exit_3
  /\ exit_status (outcome (main [("attn_fwd", bench_sys_exit)] no_filter 0))
     = 3
  /\ exit_status (outcome (main [("attn_fwd", bench_sys_exit)] no_filter 0))
     <> 0.
Proof. repeat split. discriminate. Qed.

End ConcreteRuns.

(** ** Further properties of the runner *)

Section RunnerExtras.

Variable World : Type.
Implicit Types (w : World) (args : Args) (l ops : list (Entry World)).

Lemma execution_loop_outcome_cases n_func args l : forall k w,
  match outcome (execution_loop n_func args k l w) with
  | Returned _ =>
      forallb is_Exception
              (raised_faults (events (execution_loop n_func args k l w))) = true
  | Raised e =>
      is_Exception e = false
      /\ exists pre name,
          events (execution_loop n_func args k l w)
          = pre ++ [Call name (Some e)]
  end.
Proof.
  induction l as [|[name func] l IH]; intros k w.
  - reflexivity.
  - rewrite execution_loop_cons.
    destruct (func args w) as [w' r]. cbv zeta.
    destruct r as [e|]; cbn [escapes].
    + destruct (is_Exception e) eqn:He; cbn [negb].
      * unfold after. cbn [outcome events handler_events]. rewrite He.
        specialize (IH (S k) w').
        destruct (outcome (execution_loop n_func args (S k) l w')) as [[]|e'].
        -- cbn [raised_faults app forallb]. now rewrite He.
        -- destruct IH as [He' (pre & nm & Hev)]. split; [exact He'|].
           exists (Stdout (progress_line (S k) n_func name)
                     :: Call name (Some e) :: Traceback e
                     :: Stdout (failed_line name e) :: pre), nm.
           cbn [app]. now rewrite Hev.
      * cbn [outcome events handler_events]. rewrite He.
        split; [reflexivity|].
        now exists [Stdout (progress_line (S k) n_func name)], name.
    + unfold after. cbn [outcome events handler_events app].
      specialize (IH (S k) w').
      destruct (outcome (execution_loop n_func args (S k) l w')) as [[]|e'].
      * exact IH.
      * destruct IH as [He' (pre & nm & Hev)]. split; [exact He'|].
        exists (Stdout (progress_line (S k) n_func name)
                  :: Call name None :: pre), nm.
        cbn [app]. now rewrite Hev.
Qed.

Lemma execution_loop_state n_func args l : forall k w,
  exists j,
    j <= List.length l
    /\ invoked (events (execution_loop n_func args k l w))
       = firstn j (map fst l)
    /\ world (execution_loop n_func args k l w)
       = thread_state args (firstn j l) w
    /\ (j = List.length l
        \/ exists e, outcome (execution_loop n_func args k l w) = Raised e).
Proof.
  induction l as [|[name func] l IH]; intros k w.
  - exists 0. repeat split; auto.
  - rewrite execution_loop_cons.
    destruct (func args w) as [w' r] eqn:Ef. cbv zeta.
    destruct (escapes r) eqn:Esc.
    + exists 1. cbn [events outcome world invoked firstn map fst List.length].
      rewrite invoked_handler_events. unfold thread_state.
      cbn [fold_left snd]. rewrite Ef. cbn [fst].
      repeat split; [lia|].
      right. destruct r as [e|]; [now exists e | discriminate].
    + destruct (IH (S k) w') as (j & Hj & Hinv & Hw & Hout). exists (S j).
      unfold after. cbn [events outcome world invoked app firstn map fst
                           List.length].
      rewrite invoked_app, invoked_handler_events, Hinv, Hw.
      unfold thread_state. cbn [fold_left snd app]. rewrite Ef. cbn [fst].
      repeat split; [lia|].
      destruct Hout as [->|Hr]; [now left | now right].
Qed.

Lemma execution_loop_reports n_func args l : forall k w,
  tracebacks (events (execution_loop n_func args k l w))
  = filter is_Exception
           (raised_faults (events (execution_loop n_func args k l w)))
  /\ failure_notices (events (execution_loop n_func args k l w))
     = map (fun p => failed_line (fst p) (snd p))
           (filter (fun p => is_Exception (snd p))
                   (raised_by (events (execution_loop n_func args k l w)))).
Proof.
  induction l as [|[name func] l IH]; intros k w.
  - split; reflexivity.
  - rewrite execution_loop_cons.
    destruct (func args w) as [w' r]. cbv zeta.
    assert (Hp : String.prefix "Failed to benchmark "
                               (progress_line (S k) n_func name) = false)
      by reflexivity.
    assert (Hf : forall e, String.prefix "Failed to benchmark "
                                         (failed_line name e) = true).
    { intros e. apply prefix_true_iff. eexists. reflexivity. }
    destruct r as [e|]; cbn [escapes].
    + destruct (is_Exception e) eqn:He; cbn [negb].
      * unfold after.
        cbn [events handler_events]. rewrite He.
        cbn [app tracebacks raised_faults raised_by failure_notices filter
               map fst snd].
        rewrite Hp, Hf, He. cbn [map fst snd].
        destruct (IH (S k) w') as [Ht Hn]. now rewrite Ht, Hn.
      * cbn [events handler_events]. rewrite He.
        cbn [app tracebacks raised_faults raised_by failure_notices filter
               map snd].
        rewrite Hp, He. split; reflexivity.
    + unfold after.
      cbn [events handler_events app tracebacks raised_faults raised_by
             failure_notices].
      rewrite Hp. apply IH.
Qed.

End RunnerExtras.

Section RunnerExtraTheorems.

Variable World : Type.
Implicit Types (w : World) (args : Args) (ops : list (Entry World)).

Lemma string_app_assoc (a b c : string) :
  ((a ++ b) ++ c)%string = (a ++ b ++ c)%string.
Proof. induction a as [|x a IH]; cbn; [reflexivity | now rewrite IH]. Qed.

Lemma is_substring_trans (a b c : string) :
  is_substring a b -> is_substring b c -> is_substring a c.
Proof.
  intros (p & q & ->) (p' & q' & ->).
  exists (p' ++ p)%string, (q ++ q')%string.
  now rewrite !string_app_assoc.
Qed.

Lemma quiet_prefix_reports args ops s :
  String.prefix "Failed to benchmark " s = false ->
  tracebacks (map (selection_event args) ops ++ [Stdout s]) = []
  /\ raised_by (map (selection_event args) ops ++ [Stdout s]) = []
  /\ failure_notices (map (selection_event args) ops ++ [Stdout s]) = [].
Proof.
  intros Hs. induction ops as [|e ops IH].
  - cbn. now rewrite Hs.
  - destruct IH as (Ht & Hr & Hn). cbn [map app].
    unfold selection_event at 1 3 5.
    cbn [tracebacks raised_by failure_notices].
    repeat split; auto.
    destruct (selects args (fst e)); exact Hn.
Qed.

Lemma tracebacks_app (a b : list Event) :
  tracebacks (a ++ b) = tracebacks a ++ tracebacks b.
Proof.
  induction a as [|[s|e|name r] a IH]; cbn; auto. now rewrite IH.
Qed.

Lemma raised_by_app (a b : list Event) :
  raised_by (a ++ b) = raised_by a ++ raised_by b.
Proof.
  induction a as [|[s|e|name [e'|]] a IH]; cbn; auto. now rewrite IH.
Qed.

Lemma failure_notices_app (a b : list Event) :
  failure_notices (a ++ b) = failure_notices a ++ failure_notices b.
Proof.
  induction a as [|[s|e|name r] a IH]; cbn [app failure_notices]; auto.
  destruct (String.prefix "Failed to benchmark " s); cbn [app];
    now rewrite IH.
Qed.

Lemma plan_idempotent args ops :
  plan (plan ops args) args = plan ops args.
Proof.
  unfold plan. induction ops as [|e ops IH]; [reflexivity|].
  cbn [filter]. destruct (selects args (fst e)) eqn:E; [|exact IH].
  cbn [filter]. now rewrite E, IH.
Qed.

(** [main] never lets an [Exception] out.  It returns exactly when every
    exception raised by a benchmark function was an instance of
    [Exception]; otherwise it raises an exception that is not, and the
    call that raised it is the last thing the run did. *)
Theorem main_raises_only_uncaught ops args w :
  match outcome (main ops args w) with
  | Returned _ =>
      forallb is_Exception (raised_faults (events (main ops args w))) = true
  | Raised e =>
      is_Exception e = false
      /\ forallb is_Exception (raised_faults (events (main ops args w)))
         = false
      /\ exists pre name,
          events (main ops args w) = pre ++ [Call name (Some e)]
  end.
Proof.
  rewrite main_raised_faults.
  assert (H := execution_loop_outcome_cases World
                 (List.length (plan ops args)) args (plan ops args) 0 w).
  rewrite main_spec. unfold after. cbn [outcome events].
  destruct (outcome (execution_loop (List.length (plan ops args)) args 0
                                    (plan ops args) w)) as [[]|e].
  - exact H.
  - destruct H as [He (pre & name & Hev)]. split; [exact He|]. split.
    + rewrite Hev, raised_faults_app. cbn [raised_faults].
      rewrite forallb_app. cbn [forallb]. rewrite He.
      now rewrite andb_false_r.
    + eexists _, name. rewrite Hev, app_assoc. reflexivity.
Qed.

(** The state [main] leaves behind is the one reached by running the
    benchmark functions of the entries it called, in plan order, and
    nothing else: the runner itself changes nothing, an entry the filter
    skipped never runs, and what a failing entry did before it raised
    stays.  The entries called are the first [j] of the plan, and all of
    them unless [main] raised. *)
Theorem main_final_state ops args w :
  exists j,
    j <= List.length (plan ops args)
    /\ invoked (events (main ops args w)) = firstn j (map fst (plan ops args))
    /\ world (main ops args w)
       = thread_state args (firstn j (plan ops args)) w
    /\ (j = List.length (plan ops args)
        \/ exists e, outcome (main ops args w) = Raised e).
Proof.
  rewrite main_invoked, main_outcome.
  replace (world (main ops args w))
    with (world (execution_loop (List.length (plan ops args)) args 0
                                (plan ops args) w))
    by now rewrite main_spec.
  apply execution_loop_state.
Qed.

(** Every caught exception is reported once and nothing else is: the
    tracebacks printed are the raised exceptions that are instances of
    [Exception], in the order raised, and the lines starting with
    "Failed to benchmark " are the notices for the same exceptions, each
    with the name of the entry that raised it. *)
Theorem main_reports_caught_faults ops args w :
  tracebacks (events (main ops args w))
  = filter is_Exception (raised_faults (events (main ops args w)))
  /\ failure_notices (events (main ops args w))
     = map (fun p => failed_line (fst p) (snd p))
           (filter (fun p => is_Exception (snd p))
                   (raised_by (events (main ops args w)))).
Proof.
  rewrite main_raised_faults, main_spec. unfold after. cbn [events].
  rewrite tracebacks_app, failure_notices_app, raised_by_app.
  destruct (quiet_prefix_reports args ops
              (summary_line (List.length (plan ops args)) (List.length ops))
              eq_refl) as (Ht & Hr & Hn).
  rewrite Ht, Hr, Hn. cbn [app]. apply execution_loop_reports.
Qed.

(** Filtering beforehand changes nothing but the selection lines: run on
    the plan instead of the discovery sequence, with the same [args],
    [main] selects every entry and then calls the same functions, prints
    the same execution output, ends in the same state and with the same
    outcome. *)
Theorem main_on_plan ops args w :
  outcome (selection_pass (plan ops args) args w)
  = Returned (plan ops args, List.length (plan ops args),
              List.length (plan ops args))
  /\ events (main (plan ops args) args w)
     = map (fun e => Stdout (selected_line (fst e))) (plan ops args)
         ++ Stdout (summary_line (List.length (plan ops args))
                                 (List.length (plan ops args)))
         :: events (execution_pass (plan ops args) args w)
  /\ events (main ops args w)
     = map (selection_event args) ops
         ++ Stdout (summary_line (List.length (plan ops args))
                                 (List.length ops))
         :: events (execution_pass (plan ops args) args w)
  /\ invoked (events (main (plan ops args) args w))
     = invoked (events (main ops args w))
  /\ world (main (plan ops args) args w) = world (main ops args w)
  /\ outcome (main (plan ops args) args w) = outcome (main ops args w).
Proof.
  rewrite !main_invoked, !main_spec, selection_pass_spec, !plan_idempotent.
  unfold after. cbn [outcome world events].
  assert (He : map (selection_event args) (plan ops args)
               = map (fun e : Entry World => Stdout (selected_line (fst e)))
                     (plan ops args)).
  { apply map_ext_in. intros e He. unfold plan in He.
    apply filter_In in He. unfold selection_event. now rewrite (proj2 He). }
  rewrite He, <- !app_assoc. repeat split.
Qed.

(** A longer filter selects less: when [f1] is a substring of [f2], the
    entries selected with [f2] are among those selected with [f1], and
    filtering with [f2] what [f1] selected gives the plan of [f2]. *)
Theorem narrower_filter_selects_fewer ops fo f1 f2 :
  is_substring f1 f2 ->
  (forall e, In e (plan ops (mkArgs fo (Some f2)))
             -> In e (plan ops (mkArgs fo (Some f1))))
  /\ plan (plan ops (mkArgs fo (Some f1))) (mkArgs fo (Some f2))
     = plan ops (mkArgs fo (Some f2)).
Proof.
  intros Hsub.
  assert (Himp : forall name, str_in f2 name = true -> str_in f1 name = true).
  { intros name H. apply str_in_true_iff. apply str_in_true_iff in H.
    eapply is_substring_trans; eauto. }
  split.
  - intros e. unfold plan, selects. cbn [only_run].
    rewrite !filter_In. intros [Hin H]. split; auto.
  - unfold plan, selects. cbn [only_run].
    induction ops as [|e ops IH]; [reflexivity|]. cbn [filter].
    destruct (str_in f1 (fst e)) eqn:E1.
    + cbn [filter]. destruct (str_in f2 (fst e)); now rewrite IH.
    + destruct (str_in f2 (fst e)) eqn:E2; [|exact IH].
      apply Himp in E2. congruence.
Qed.

End RunnerExtraTheorems.

(** ** Lists of equal-sized blocks *)

Section BlockFacts.

Context {A : Type}.

Lemma ravel_lt (i n j m : nat) : i < n -> j < m -> i * m + j < n * m.
Proof. intros Hi Hj. nia. Qed.

Lemma nth_error_concat_repeat (x : list A) (n c r : nat) :
  c < n -> r < List.length x ->
  nth_error (List.concat (List.repeat x n)) (c * List.length x + r)
  = nth_error x r.
Proof.
  revert c. induction n as [|n IH]; intros c Hc Hr; [lia|].
  cbn [List.repeat List.concat]. destruct c as [|c].
  - cbn [Nat.mul Nat.add]. now rewrite nth_error_app1 by exact Hr.
  - rewrite nth_error_app2 by (cbn; lia).
    replace (S c * List.length x + r - List.length x)
      with (c * List.length x + r) by (cbn; lia).
    apply IH; lia.
Qed.

Lemma length_concat_repeat (x : list A) (n : nat) :
  List.length (List.concat (List.repeat x n)) = n * List.length x.
Proof.
  induction n as [|n IH]; [reflexivity|].
  cbn [List.repeat List.concat]. rewrite length_app, IH. cbn. lia.
Qed.

Lemma length_flat_map_uniform {B} (f : B -> list A) (l : list B) (m : nat) :
  (forall y, In y l -> List.length (f y) = m) ->
  List.length (flat_map f l) = List.length l * m.
Proof.
  induction l as [|y l IH]; intros H; [reflexivity|].
  cbn [flat_map List.length]. rewrite length_app, (H y) by (cbn; auto).
  rewrite IH by (intros z Hz; apply H; now right). cbn. lia.
Qed.

Lemma nth_error_flat_map_uniform {B} (f : B -> list A) (l : list B)
      (m i r : nat) (y : B) :
  (forall z, In z l -> List.length (f z) = m) ->
  nth_error l i = Some y -> r < m ->
  nth_error (flat_map f l) (i * m + r) = nth_error (f y) r.
Proof.
  revert i. induction l as [|z l IH]; intros i H Hi Hr.
  - destruct i; discriminate.
  - cbn [flat_map]. destruct i as [|i].
    + injection Hi as ->. cbn [Nat.mul Nat.add].
      rewrite nth_error_app1; [reflexivity|].
      rewrite (H y) by (cbn; auto). exact Hr.
    + rewrite nth_error_app2 by (rewrite (H z) by (cbn; auto); cbn; lia).
      rewrite (H z) by (cbn; auto).
      replace (S i * m + r - m) with (i * m + r) by (cbn; lia).
      apply IH; auto. intros z' Hz'. apply H. now right.
Qed.

Lemma flat_map_ext_in {B} (f g : B -> list A) (l : list B) :
  (forall y, In y l -> f y = g y) -> flat_map f l = flat_map g l.
Proof.
  induction l as [|y l IH]; intros H; [reflexivity|].
  cbn [flat_map]. rewrite (H y) by (cbn; auto).
  rewrite IH; [reflexivity|]. intros z Hz. apply H. now right.
Qed.

Lemma nth_error_chunks (c n : nat) : forall (d : list A) (i : nat),
  i < n ->
  nth_error (Torch.chunks c n d) i = Some (firstn c (skipn (i * c) d)).
Proof.
  induction n as [|n IH]; intros d i Hi; [lia|].
  cbn [Torch.chunks]. destruct i as [|i]; [reflexivity|].
  cbn [nth_error]. rewrite IH by lia.
  now rewrite skipn_skipn, Nat.add_comm.
Qed.

Lemma length_chunks (c n : nat) : forall d : list A,
  List.length (Torch.chunks c n d) = n.
Proof.
  induction n as [|n IH]; intros d; [reflexivity|].
  cbn [Torch.chunks List.length]. now rewrite IH.
Qed.

Lemma chunks_length_in (c n : nat) : forall (d x : list A),
  n * c <= List.length d -> In x (Torch.chunks c n d) -> List.length x = c.
Proof.
  induction n as [|n IH]; intros d x Hd Hx; [contradiction|].
  cbn [Torch.chunks] in Hx. destruct Hx as [<-|Hx].
  - rewrite length_firstn. cbn in Hd. lia.
  - apply (IH (skipn c d)); [|exact Hx]. rewrite length_skipn. cbn in Hd. lia.
Qed.

Lemma firstn_plus (a b : nat) : forall d : list A,
  firstn (a + b) d = firstn a d ++ firstn b (skipn a d).
Proof.
  induction a as [|a IH]; intros d; [reflexivity|].
  destruct d as [|x d]; cbn [Nat.add firstn skipn app].
  - now rewrite firstn_nil.
  - now rewrite IH.
Qed.

Lemma concat_chunks (c n : nat) : forall d : list A,
  flat_map (fun x => x) (Torch.chunks c n d) = firstn (n * c) d.
Proof.
  induction n as [|n IH]; intros d; [reflexivity|].
  cbn [Torch.chunks flat_map]. rewrite IH.
  cbn [Nat.mul]. now rewrite firstn_plus.
Qed.

Lemma nth_error_firstn_skipn (c a k : nat) (d : list A) :
  k < c -> nth_error (firstn c (skipn a d)) k = nth_error d (a + k).
Proof.
  intros Hk. rewrite nth_error_firstn.
  destruct (Nat.ltb_spec k c) as [_|H]; [|lia].
  apply nth_error_skipn.
Qed.

End BlockFacts.

(** ** The attention mask layout *)

Module MaskLayout.

Import Torch XformersAttn.

Section Facts.

Context {A : Type}.

Lemma tile_row (S : nat) (row : list A) :
  List.length row = S -> tile [S] [1] row = row.
Proof.
  intros Hrow. cbn [tile numel fold_right List.repeat List.concat].
  rewrite app_nil_r.
  rewrite concat_chunks, Nat.mul_1_r, <- Hrow. apply firstn_all.
Qed.

Lemma tile_rows (S : nat) (row : list A) :
  List.length row = S ->
  tile [1; S] [S; 1] row = List.concat (List.repeat row S).
Proof.
  intros Hrow. cbn [tile]. f_equal. f_equal.
  cbn [numel fold_right chunks flat_map List.repeat List.concat].
  rewrite !app_nil_r, concat_chunks, !Nat.mul_1_r, <- Hrow.
  now rewrite !firstn_all.
Qed.

(** A mask of [B] rows of [S] values laid out for [H] heads: [H] copies
    of the sequence that repeats each row [S] times. *)
Lemma tile_mask (B S H : nat) (d : list A) :
  List.length d = B * S ->
  tile [B; 1; S] [H; S; 1] d
  = List.concat
      (List.repeat
         (flat_map (fun row => List.concat (List.repeat row S))
                   (chunks S B d)) H).
Proof.
  intros Hd. change (tile [B; 1; S] [H; S; 1] d)
    with (List.concat
            (List.repeat
               (flat_map (tile [1; S] [S; 1])
                         (chunks (numel [1; S]) B d)) H)).
  f_equal. f_equal.
  replace (numel [1; S]) with S by (cbn; lia).
  apply flat_map_ext_in. intros row Hrow. apply tile_rows.
  apply (chunks_length_in S B d); [lia | exact Hrow].
Qed.

Lemma squeeze_mask_shape (B S : nat) :
  2 <= B -> 2 <= S ->
  filter (fun d => negb (Nat.eqb d 1)) [B; 1; 1; S] = [B; S].
Proof.
  intros HB HS. cbn [filter Nat.eqb negb].
  destruct (Nat.eqb_spec B 1); [lia|].
  destruct (Nat.eqb_spec S 1); [lia|]. reflexivity.
Qed.

Lemma layout_attention_mask_eval (mask : Tensor A) (B S H : nat) :
  shape mask = [B; 1; 1; S] -> 2 <= B -> 2 <= S ->
  layout_attention_mask mask H
  = Ok (mkTensor [B * H; 1 * S; S * 1]
                 (tile [B; 1; S] [H; S; 1] (data mask))).
Proof.
  intros Hs HB HS. unfold layout_attention_mask, squeeze.
  rewrite Hs, squeeze_mask_shape by assumption.
  unfold shape_at, reshape. cbn [shape data nth_error bind].
  replace (Nat.eqb (numel [B; 1; S]) (numel [B; S])) with true
    by (symmetry; apply Nat.eqb_eq; cbn; lia).
  cbn [shape data nth_error bind]. reflexivity.
Qed.

Lemma length_mask_block (B S : nat) (d : list A) :
  List.length d = B * S ->
  List.length (flat_map (fun row => List.concat (List.repeat row S))
                        (chunks S B d)) = B * (S * S).
Proof.
  intros Hd. rewrite (length_flat_map_uniform _ _ (S * S)), length_chunks;
    [reflexivity|].
  intros row Hrow. rewrite length_concat_repeat.
  now rewrite (chunks_length_in S B d row) by (lia || assumption).
Qed.

(** [layout_attention_mask] on a padding mask of shape [(B, 1, 1, S)] with
    more than one sequence of more than one position: the result has
    shape [(B * H, S, S)] and as many elements. *)
Theorem layout_attention_mask_shape (mask : Tensor A) (B S H : nat) :
  shape mask = [B; 1; 1; S] -> well_formed mask -> 2 <= B -> 2 <= S ->
  exists t,
    layout_attention_mask mask H = Ok t
    /\ shape t = [B * H; S; S]
    /\ well_formed t.
Proof.
  intros Hs Hwf HB HS.
  rewrite (layout_attention_mask_eval mask B S H Hs HB HS).
  eexists. split; [reflexivity|]. cbn [shape].
  rewrite Nat.mul_1_l, Nat.mul_1_r. split; [reflexivity|].
  unfold well_formed in *. cbn [shape data]. rewrite Hs in Hwf.
  assert (Hd : List.length (data mask) = B * S) by (cbn in Hwf; lia).
  rewrite tile_mask, length_concat_repeat, length_mask_block by exact Hd.
  cbn [numel fold_right]. lia.
Qed.

(** Which mask row ends up where: row [j] of matrix [i] of the result is
    the mask of sequence [i mod B], for every [j].  The [B * H] matrices
    are [H] runs of the [B] sequences, not [B] runs of [H] heads. *)
Theorem layout_attention_mask_rows (mask : Tensor A) (B S H : nat) :
  shape mask = [B; 1; 1; S] -> well_formed mask -> 2 <= B -> 2 <= S ->
  exists t,
    layout_attention_mask mask H = Ok t
    /\ forall i j k, i < B * H -> j < S -> k < S ->
         nth_error (data t) ((i * S + j) * S + k)
         = nth_error (data mask) ((i mod B) * S + k).
Proof.
  intros Hs Hwf HB HS.
  rewrite (layout_attention_mask_eval mask B S H Hs HB HS).
  eexists. split; [reflexivity|]. cbn [data]. intros i j k Hi Hj Hk.
  unfold well_formed in Hwf. rewrite Hs in Hwf.
  assert (Hd : List.length (data mask) = B * S) by (cbn in Hwf; lia).
  rewrite tile_mask by exact Hd.
  set (block := flat_map (fun row => List.concat (List.repeat row S))
                         (chunks S B (data mask))).
  assert (Hblock : List.length block = B * (S * S))
    by (apply length_mask_block; exact Hd).
  assert (Hq : i / B < H) by (apply Nat.Div0.div_lt_upper_bound; lia).
  assert (Hm : i mod B < B) by (apply Nat.mod_upper_bound; lia).
  assert (Hr : (i mod B) * (S * S) + (j * S + k) < List.length block).
  { rewrite Hblock. apply ravel_lt; [exact Hm | now apply ravel_lt]. }
  replace ((i * S + j) * S + k)
    with ((i / B) * List.length block
          + ((i mod B) * (S * S) + (j * S + k))).
  2:{ rewrite Hblock. rewrite (Nat.div_mod_eq i B) at 3. ring. }
  rewrite nth_error_concat_repeat by assumption.
  unfold block.
  rewrite (nth_error_flat_map_uniform _ _ (S * S) (i mod B) (j * S + k)
             (firstn S (skipn ((i mod B) * S) (data mask)))).
  - set (row := firstn S (skipn ((i mod B) * S) (data mask))).
    assert (Hrow : List.length row = S).
    { unfold row. rewrite length_firstn, length_skipn, Hd. nia. }
    rewrite <- Hrow at 2.
    rewrite nth_error_concat_repeat by (rewrite ?Hrow; assumption).
    unfold row. now apply nth_error_firstn_skipn.
  - intros row Hrow. rewrite length_concat_repeat.
    now rewrite (chunks_length_in S B (data mask) row) by (lia || assumption).
  - now apply nth_error_chunks.
  - now apply ravel_lt.
Qed.

(** With a single sequence in the batch, or sequences of a single
    position, [squeeze] drops that dimension too and the next line fails:
    [layout_attention_mask] raises [IndexError]. *)
Theorem layout_attention_mask_batch_of_one (mask : Tensor A) (B S H : nat) :
  shape mask = [B; 1; 1; S] -> B = 1 \/ S = 1 ->
  layout_attention_mask mask H = Err IndexError.
Proof.
  intros Hs Hone. unfold layout_attention_mask, squeeze. rewrite Hs.
  cbn [filter Nat.eqb negb shape].
  destruct (Nat.eqb_spec B 1) as [->|HB], (Nat.eqb_spec S 1) as [->|HS];
    cbn [negb]; try reflexivity.
  destruct Hone; contradiction.
Qed.

End Facts.

End MaskLayout.

(** ** The layout of [pt_attention] *)

Module PtAttentionLayout.

Import Torch XformersAttn.

Section Facts.

Context {A : Type}.

Lemma gather_cons (i : nat) (idxs : list nat) (d : list A) (x : A) :
  nth_error d i = Some x -> gather (i :: idxs) d = x :: gather idxs d.
Proof. intros H. unfold gather. cbn [flat_map]. now rewrite H. Qed.

Lemma nth_error_gather (d : list A) : forall (idxs : list nat) (k : nat),
  Forall (fun i => i < List.length d) idxs ->
  nth_error (gather idxs d) k
  = match nth_error idxs k with
    | Some i => nth_error d i
    | None => None
    end.
Proof.
  induction idxs as [|i idxs IH]; intros k Hall.
  - now destruct k.
  - inversion Hall as [|? ? Hi Hrest]; subst.
    destruct (nth_error d i) as [x|] eqn:Hx;
      [|apply nth_error_None in Hx; lia].
    rewrite (gather_cons _ _ _ _ Hx). destruct k as [|k]; cbn [nth_error].
    + now rewrite Hx.
    + now apply IH.
Qed.

Lemma length_gather (d : list A) (idxs : list nat) :
  Forall (fun i => i < List.length d) idxs ->
  List.length (gather idxs d) = List.length idxs.
Proof.
  induction idxs as [|i idxs IH]; intros Hall; [reflexivity|].
  inversion Hall as [|? ? Hi Hrest]; subst.
  destruct (nth_error d i) as [x|] eqn:Hx;
    [|apply nth_error_None in Hx; lia].
  rewrite (gather_cons _ _ _ _ Hx). cbn [List.length]. now rewrite IH.
Qed.

End Facts.

Lemma nth_error_seq_0 (n i : nat) : i < n -> nth_error (seq 0 n) i = Some i.
Proof.
  intros Hi. rewrite nth_error_seq.
  now destruct (Nat.ltb_spec i n); [|lia].
Qed.

Lemma length_permute_0213_indices (d0 d1 d2 d3 : nat) :
  List.length (permute_0213_indices d0 d1 d2 d3) = d0 * (d2 * (d1 * d3)).
Proof.
  unfold permute_0213_indices.
  rewrite (length_flat_map_uniform _ _ (d2 * (d1 * d3))), length_seq;
    [reflexivity|].
  intros a _.
  rewrite (length_flat_map_uniform _ _ (d1 * d3)), length_seq; [reflexivity|].
  intros c _.
  rewrite (length_flat_map_uniform _ _ d3), length_seq; [reflexivity|].
  intros b _. now rewrite length_map, length_seq.
Qed.

Lemma nth_error_permute_0213_indices (d0 d1 d2 d3 a b c e : nat) :
  a < d0 -> b < d1 -> c < d2 -> e < d3 ->
  nth_error (permute_0213_indices d0 d1 d2 d3)
            (((a * d2 + c) * d1 + b) * d3 + e)
  = Some (((a * d1 + b) * d2 + c) * d3 + e).
Proof.
  intros Ha Hb Hc He. unfold permute_0213_indices.
  replace (((a * d2 + c) * d1 + b) * d3 + e)
    with (a * (d2 * (d1 * d3)) + (c * (d1 * d3) + (b * d3 + e))) by ring.
  rewrite (nth_error_flat_map_uniform _ _ (d2 * (d1 * d3)) a _ a).
  - rewrite (nth_error_flat_map_uniform _ _ (d1 * d3) c _ c).
    + rewrite (nth_error_flat_map_uniform _ _ d3 b _ b).
      * now rewrite nth_error_map, nth_error_seq_0.
      * intros z _. now rewrite length_map, length_seq.
      * now apply nth_error_seq_0.
      * exact He.
    + intros z _.
      rewrite (length_flat_map_uniform _ _ d3), length_seq; [reflexivity|].
      intros y _. now rewrite length_map, length_seq.
    + now apply nth_error_seq_0.
    + now apply ravel_lt.
  - intros z _.
    rewrite (length_flat_map_uniform _ _ (d1 * d3)), length_seq;
      [reflexivity|].
    intros y _.
    rewrite (length_flat_map_uniform _ _ d3), length_seq; [reflexivity|].
    intros x _. now rewrite length_map, length_seq.
  - now apply nth_error_seq_0.
  - apply ravel_lt; [exact Hc | now apply ravel_lt].
Qed.

Lemma permute_0213_indices_in_range (d0 d1 d2 d3 : nat) :
  Forall (fun i => i < d0 * (d1 * (d2 * d3)))
         (permute_0213_indices d0 d1 d2 d3).
Proof.
  apply Forall_forall. intros i Hi. unfold permute_0213_indices in Hi.
  apply in_flat_map in Hi. destruct Hi as (a & Ha & Hi).
  apply in_flat_map in Hi. destruct Hi as (c & Hc & Hi).
  apply in_flat_map in Hi. destruct Hi as (b & Hb & Hi).
  apply in_map_iff in Hi. destruct Hi as (e & <- & He).
  apply in_seq in Ha, Hb, Hc, He.
  replace (d0 * (d1 * (d2 * d3))) with (((d0 * d1) * d2) * d3) by ring.
  apply ravel_lt; [|lia]. apply ravel_lt; [|lia]. apply ravel_lt; lia.
Qed.

Section Layout.

Context {A Float AttnBias : Type}.
Variable attention_bmk :
  Tensor A -> Tensor A -> Tensor A -> AttnBias -> Float -> Py (Tensor A).

Lemma permute_0213_eval (t : Tensor A) (d0 d1 d2 d3 : nat) :
  shape t = [d0; d1; d2; d3] ->
  permute_0213 t
  = Ok (mkTensor [d0; d2; d1; d3]
                 (gather (permute_0213_indices d0 d1 d2 d3) (data t))).
Proof. intros Hs. unfold permute_0213. now rewrite Hs. Qed.

Lemma T_eval (t : Tensor A) (B S H D : nat) :
  shape t = [B; S; H; D] ->
  T t = Ok (mkTensor [B * H; S; D]
                     (gather (permute_0213_indices B S H D) (data t))).
Proof.
  intros Hs. unfold T. rewrite (permute_0213_eval t B S H D Hs), Hs.
  unfold shape_at, reshape. cbn [nth_error bind shape data].
  replace (Nat.eqb (numel [B * H; S; D]) (numel [B; H; S; D])) with true
    by (symmetry; apply Nat.eqb_eq; cbn; ring).
  reflexivity.
Qed.

Lemma nth_error_permuted (t : Tensor A) (d0 d1 d2 d3 a b c e : nat) :
  shape t = [d0; d1; d2; d3] -> well_formed t ->
  a < d0 -> b < d1 -> c < d2 -> e < d3 ->
  nth_error (gather (permute_0213_indices d0 d1 d2 d3) (data t))
            (((a * d2 + c) * d1 + b) * d3 + e)
  = nth_error (data t) (((a * d1 + b) * d2 + c) * d3 + e).
Proof.
  intros Hs Hwf Ha Hb Hc He. unfold well_formed in Hwf. rewrite Hs in Hwf.
  rewrite nth_error_gather.
  - now rewrite nth_error_permute_0213_indices.
  - rewrite Hwf. cbn [numel fold_right]. rewrite Nat.mul_1_r.
    apply permute_0213_indices_in_range.
Qed.

Lemma length_permuted (t : Tensor A) (d0 d1 d2 d3 : nat) :
  shape t = [d0; d1; d2; d3] -> well_formed t ->
  List.length (gather (permute_0213_indices d0 d1 d2 d3) (data t))
  = d0 * (d2 * (d1 * d3)).
Proof.
  intros Hs Hwf. unfold well_formed in Hwf. rewrite Hs in Hwf.
  rewrite length_gather; [apply length_permute_0213_indices|].
  rewrite Hwf. cbn [numel fold_right]. rewrite Nat.mul_1_r.
  apply permute_0213_indices_in_range.
Qed.

(** [T] turns a [(B, S, H, D)] tensor into [B * H] matrices of shape
    [(S, D)]: matrix [b * H + h] holds head [h] of sequence [b]. *)
Theorem T_layout (t : Tensor A) (B S H D : nat) :
  shape t = [B; S; H; D] -> well_formed t ->
  exists r,
    T t = Ok r
    /\ shape r = [B * H; S; D]
    /\ well_formed r
    /\ forall b h s d, b < B -> h < H -> s < S -> d < D ->
         nth_error (data r) (((b * H + h) * S + s) * D + d)
         = nth_error (data t) (((b * S + s) * H + h) * D + d).
Proof.
  intros Hs Hwf. rewrite (T_eval t B S H D Hs). eexists.
  split; [reflexivity|]. cbn [shape data]. split; [reflexivity|]. split.
  - unfold well_formed. cbn [shape data].
    rewrite (length_permuted t B S H D Hs Hwf). cbn [numel fold_right]. ring.
  - intros b h s d Hb Hh Hs' Hd. now apply nth_error_permuted.
Qed.

Lemma unravel (n a m : nat) :
  n < a * m -> exists i j, i < a /\ j < m /\ n = i * m + j.
Proof.
  intros Hn. assert (Hm : m <> 0) by nia.
  exists (n / m), (n mod m). split; [|split].
  - apply Nat.Div0.div_lt_upper_bound. lia.
  - now apply Nat.mod_upper_bound.
  - rewrite (Nat.div_mod_eq n m) at 1. ring.
Qed.

Lemma pt_attention_eval (q k v tq tk tv o : Tensor A) (bias : AttnBias)
      (p : Float) (B S H D Dv : nat) :
  shape q = [B; S; H; D] -> T q = Ok tq -> T k = Ok tk -> T v = Ok tv ->
  shape_at (shape v) 3 = Ok Dv ->
  attention_bmk tq tk tv bias p = Ok o ->
  numel (shape o) = numel [B; H; S; Dv] ->
  pt_attention true attention_bmk q k v bias p
  = Ok (mkTensor [B; S; H; Dv]
                 (gather (permute_0213_indices B H S Dv) (data o))).
Proof.
  intros Hs Hq Hk Hv Hv3 Ho Hn. unfold pt_attention.
  rewrite Hq, Hk, Hv, Hs, Hv3. cbn [assert bind List.length Nat.eqb].
  rewrite Ho. unfold shape_at, reshape. cbn [nth_error bind].
  rewrite Hn, Nat.eqb_refl. cbn [bind].
  now rewrite (permute_0213_eval _ B H S Dv) by reflexivity.
Qed.

(** [pt_attention] hands [attention_bmk] one matrix per sequence and head
    and puts what comes back where the query came from: element
    [(b, s, h, d)] of the result is element [(b * H + h, s, d)] of what
    [attention_bmk] returned. *)
Theorem pt_attention_layout (q k v tq tk tv o : Tensor A) (bias : AttnBias)
        (p : Float) (B S H D Dv : nat) :
  shape q = [B; S; H; D] -> T q = Ok tq -> T k = Ok tk -> T v = Ok tv ->
  shape_at (shape v) 3 = Ok Dv ->
  attention_bmk tq tk tv bias p = Ok o ->
  shape o = [B * H; S; Dv] -> well_formed o ->
  exists r,
    pt_attention true attention_bmk q k v bias p = Ok r
    /\ shape r = [B; S; H; Dv]
    /\ well_formed r
    /\ forall b h s d, b < B -> h < H -> s < S -> d < Dv ->
         nth_error (data r) (((b * S + s) * H + h) * Dv + d)
         = nth_error (data o) (((b * H + h) * S + s) * Dv + d).
Proof.
  intros Hs Hq Hk Hv Hv3 Ho Hso Hwf.
  assert (Hn : numel (shape o) = numel [B; H; S; Dv])
    by (rewrite Hso; cbn; ring).
  rewrite (pt_attention_eval q k v tq tk tv o bias p B S H D Dv) by assumption.
  eexists. split; [reflexivity|]. cbn [shape data].
  split; [reflexivity|].
  assert (Hwf' : well_formed (mkTensor [B; H; S; Dv] (data o))).
  { unfold well_formed in *. cbn [shape data]. now rewrite Hwf. }
  split.
  - unfold well_formed. cbn [shape data].
    assert (Hlen := length_permuted (mkTensor [B; H; S; Dv] (data o))
                      B H S Dv eq_refl Hwf').
    cbn [data] in Hlen. rewrite Hlen. cbn [numel fold_right]. ring.
  - intros b h s d Hb Hh Hs' Hd.
    apply (nth_error_permuted (mkTensor [B; H; S; Dv] (data o))
             B H S Dv b h s d eq_refl Hwf'); assumption.
Qed.

(** The two layout changes of [pt_attention] undo each other: were
    [attention_bmk] to return the values it is given, [pt_attention]
    would return [v] as it is. *)
Theorem pt_attention_puts_values_back (q k v : Tensor A) (bias : AttnBias)
        (p : Float) (B S H D Bk Sk Hk Dk Dv : nat) :
  (forall tq tk tv, attention_bmk tq tk tv bias p = Ok tv) ->
  shape q = [B; S; H; D] -> shape k = [Bk; Sk; Hk; Dk] ->
  shape v = [B; S; H; Dv] -> well_formed v ->
  pt_attention true attention_bmk q k v bias p = Ok v.
Proof.
  intros Hbmk Eq Ek Ev Hwf.
  destruct (T_layout v B S H Dv Ev Hwf) as (tv & HTv & Hstv & Hwtv & Hdtv).
  destruct (pt_attention_layout q k v _ _ tv tv bias p B S H D Dv Eq
              (T_eval q B S H D Eq) (T_eval k Bk Sk Hk Dk Ek) HTv
              ltac:(now rewrite Ev) (Hbmk _ _ _) Hstv Hwtv)
    as (r & Hr & Hsr & Hwr & Hdr).
  rewrite Hr. f_equal. destruct r as [sr dr], v as [sv dv].
  cbn [shape data] in *. subst sr sv. f_equal.
  unfold well_formed in Hwr, Hwf. cbn [shape data numel fold_right] in Hwr, Hwf.
  apply nth_error_ext. intros n.
  destruct (Nat.lt_ge_cases n (((B * S) * H) * Dv)) as [Hn|Hn].
  - destruct (unravel n _ _ Hn) as (n1 & d & Hn1 & Hd & ->).
    destruct (unravel n1 _ _ Hn1) as (n2 & h & Hn2 & Hh & ->).
    destruct (unravel n2 _ _ Hn2) as (b & s & Hb & Hs & ->).
    rewrite Hdr by assumption. now apply Hdtv.
  - transitivity (@None A).
    + apply nth_error_None. rewrite Hwr. nia.
    + symmetry. apply nth_error_None. rewrite Hwf. nia.
Qed.

End Layout.

End PtAttentionLayout.

(** ** Heads: constructors and reshaping *)

Module Heads.

Import Torch XformersAttn.

Lemma numel_app (a b : list nat) : numel (a ++ b) = numel a * numel b.
Proof.
  unfold numel. induction a as [|x a IH]; simpl; [lia|].
  rewrite IH. ring.
Qed.

Lemma all_but_last_app (pre : list nat) (x : nat) :
  all_but_last (pre ++ [x]) = pre.
Proof. apply removelast_last. Qed.

Lemma all_but_last_two_app (pre : list nat) (x y : nat) :
  all_but_last_two (pre ++ [x; y]) = pre.
Proof.
  unfold all_but_last_two. rewrite length_app. cbn [List.length].
  replace (List.length pre + 2 - 2) with (List.length pre + 0) by lia.
  rewrite firstn_app_2. cbn [firstn]. apply app_nil_r.
Qed.

Section Reshaping.

Context {A : Type}.

Lemma view_last_dim (t : Tensor A) (pre : list nat) (last nh hs : nat) :
  shape t = pre ++ [last] ->
  view t (all_but_last (shape t) ++ [nh; hs])
  = if Nat.eqb (numel pre * (nh * hs)) (numel pre * last)
    then Ok (mkTensor (pre ++ [nh; hs]) (data t))
    else Err RuntimeError.
Proof.
  intros Hs. unfold view, reshape. rewrite Hs, all_but_last_app, !numel_app.
  cbn [numel fold_right]. now rewrite !Nat.mul_1_r.
Qed.

(** [_split_heads] replaces a last dimension of [num_heads *
    attn_head_size] by the two dimensions [(num_heads, attn_head_size)],
    and [_merge_heads] undoes it: the tensor comes back as it was. *)
Theorem split_merge_heads_round_trip (t : Tensor A) (pre : list nat)
        (num_heads attn_head_size : nat) :
  shape t = pre ++ [num_heads * attn_head_size] ->
  _split_heads t num_heads attn_head_size
  = Ok (mkTensor (pre ++ [num_heads; attn_head_size]) (data t))
  /\ bind (_split_heads t num_heads attn_head_size)
          (fun x => _merge_heads x num_heads attn_head_size)
     = Ok t.
Proof.
  intros Hs. unfold _split_heads.
  rewrite (view_last_dim t pre _ num_heads attn_head_size Hs), Nat.eqb_refl.
  split; [reflexivity|]. cbn [bind]. unfold _merge_heads, contiguous, view,
                                       reshape.
  cbn [shape data]. rewrite all_but_last_two_app, !numel_app.
  cbn [numel fold_right]. rewrite !Nat.mul_1_r, Nat.eqb_refl.
  destruct t as [s d]. cbn [shape data] in *. now subst s.
Qed.

(** [_split_heads] and [reshape_for_scores] raise [RuntimeError] on a
    tensor with elements whose last dimension is not [num_heads *
    attn_head_size]. *)
Theorem split_heads_rejects_other_sizes (t : Tensor A) (pre : list nat)
        (last num_heads attn_head_size : nat) :
  shape t = pre ++ [last] -> numel pre <> 0 ->
  last <> num_heads * attn_head_size ->
  _split_heads t num_heads attn_head_size = Err RuntimeError
  /\ reshape_for_scores num_heads attn_head_size t = Err RuntimeError.
Proof.
  intros Hs Hpre Hlast. unfold _split_heads, reshape_for_scores.
  rewrite (view_last_dim t pre last num_heads attn_head_size Hs).
  destruct (Nat.eqb_spec (numel pre * (num_heads * attn_head_size))
                         (numel pre * last)) as [E|E]; [|now split].
  apply Nat.mul_cancel_l in E; [congruence | exact Hpre].
Qed.

End Reshaping.

Section Constructors.

Context {Float Dropout : Type}.
Variable int_of_true_div : nat -> nat -> nat.
Variable nn_Dropout : Float -> Py Dropout.

(** A double holds every integer below [2 ^ 53] and division is
    correctly rounded, so for such a multiple [a] of [b] the quotient
    [a / b] is exact and [int] returns it. *)
Hypothesis int_of_true_div_exact : forall a b,
  b <> 0 -> a mod b = 0 -> Nat.log2 a < 53 -> int_of_true_div a b = a / b.

Lemma exact_quotient (a b : nat) :
  b <> 0 -> a mod b = 0 -> Nat.log2 a < 53 ->
  b * int_of_true_div a b = a.
Proof.
  intros Hb Hmod Hlog. rewrite int_of_true_div_exact by assumption.
  rewrite (Nat.div_mod_eq a b) at 2. lia.
Qed.

Lemma select_attn_op_needs_xformers (attn_op_name : option string) :
  select_attn_op false attn_op_name
  = Err (AssertionError "xformers is not installed").
Proof. reflexivity. Qed.

(** A [GenericSelfAttention] that was constructed has a non-zero number
    of heads that divides the hidden size into heads of equal size:
    [num_attention_heads * attention_head_size = all_head_size =
    hidden_size].  Its projections map [hidden_size] features to
    [all_head_size], or three times that when fused, and it has an output
    projection exactly when it is a decoder. *)
Theorem GenericSelfAttention_init_invariant
        (xformers_installed : bool) (hidden_size num_attention_heads : nat)
        (is_decoder : bool) (attn_pdrop resid_pdrop : Float)
        (attn_op_name : option string) (fused_qkv : bool)
        (m : GenericSelfAttention Float Dropout) :
  GenericSelfAttention_init int_of_true_div nn_Dropout xformers_installed
    hidden_size num_attention_heads is_decoder attn_pdrop resid_pdrop
    attn_op_name fused_qkv = Ok m ->
  Nat.log2 hidden_size < 53 ->
  s_hidden_size m = hidden_size
  /\ s_num_attention_heads m = num_attention_heads
  /\ num_attention_heads <> 0
  /\ s_num_attention_heads m * s_attention_head_size m = hidden_size
  /\ s_all_head_size m = hidden_size
  /\ s_projections m
     = (if fused_qkv then fused (mkLinear hidden_size (3 * hidden_size))
        else separate (mkLinear hidden_size hidden_size)
                      (mkLinear hidden_size hidden_size)
                      (mkLinear hidden_size hidden_size))
  /\ (is_decoder = true <-> s_out_proj m <> None)
  /\ xformers_installed = true.
Proof.
  unfold GenericSelfAttention_init, py_mod. intros Hinit Hlog.
  destruct (Nat.eqb_spec num_attention_heads 0) as [|Hheads];
    [discriminate|].
  cbn [bind] in Hinit.
  destruct (Nat.eqb_spec (hidden_size mod num_attention_heads) 0)
    as [Hmod|]; [|discriminate].
  cbn [negb bind] in Hinit.
  assert (Hq := exact_quotient hidden_size num_attention_heads
                  Hheads Hmod Hlog).
  rewrite Hq in Hinit.
  destruct xformers_installed; [|destruct is_decoder;
    [destruct (nn_Dropout resid_pdrop)|]; discriminate].
  destruct is_decoder.
  - destruct (nn_Dropout resid_pdrop) as [d|]; [|discriminate].
    cbn [bind] in Hinit.
    destruct (select_attn_op true attn_op_name); [|discriminate].
    injection Hinit as <-. cbn.
    repeat split; auto; discriminate.
  - cbn [bind] in Hinit.
    destruct (select_attn_op true attn_op_name); [|discriminate].
    injection Hinit as <-. cbn.
    repeat split; auto; try discriminate.
Qed.

(** [GenericSelfAttention] cannot be constructed with zero heads
    ([ZeroDivisionError]) nor with a hidden size that is not a multiple of
    the number of heads ([ValueError]), whatever the other arguments. *)
Theorem GenericSelfAttention_init_rejects
        (xformers_installed : bool) (hidden_size num_attention_heads : nat)
        (is_decoder : bool) (attn_pdrop resid_pdrop : Float)
        (attn_op_name : option string) (fused_qkv : bool) :
  hidden_size mod num_attention_heads <> 0 \/ num_attention_heads = 0 ->
  GenericSelfAttention_init int_of_true_div nn_Dropout xformers_installed
    hidden_size num_attention_heads is_decoder attn_pdrop resid_pdrop
    attn_op_name fused_qkv
  = if Nat.eqb num_attention_heads 0 then Err ZeroDivisionError
    else Err (ValueError
                (not_a_multiple_msg hidden_size num_attention_heads)).
Proof.
  intros H. unfold GenericSelfAttention_init, py_mod.
  destruct (Nat.eqb_spec num_attention_heads 0) as [|Hheads];
    [reflexivity|].
  destruct H as [H|H]; [|contradiction]. cbn [bind].
  destruct (Nat.eqb_spec (hidden_size mod num_attention_heads) 0);
    [contradiction | reflexivity].
Qed.

(** A [BertSelfAttention] that was constructed from a configuration
    without [embedding_size] has heads of equal size that make up the
    hidden size, and its position embedding type is neither
    "relative_key" nor "relative_key_query". *)
Theorem BertSelfAttention_init_invariant
        (xformers_installed : bool) (config : BertConfig Float)
        (position_embedding_type attn_op_name : option string)
        (m : BertSelfAttention Float) :
  BertSelfAttention_init int_of_true_div xformers_installed config
    position_embedding_type attn_op_name = Ok m ->
  bert_embedding_size _ config = None ->
  Nat.log2 (bert_hidden_size _ config) < 53 ->
  b_num_attention_heads m = bert_num_attention_heads _ config
  /\ b_num_attention_heads m <> 0
  /\ b_num_attention_heads m * b_attention_head_size m
     = bert_hidden_size _ config
  /\ b_all_head_size m = bert_hidden_size _ config
  /\ b_query m = mkLinear (bert_hidden_size _ config)
                          (bert_hidden_size _ config)
  /\ b_position_embedding_type m <> "relative_key"%string
  /\ b_position_embedding_type m <> "relative_key_query"%string
  /\ xformers_installed = true.
Proof.
  unfold BertSelfAttention_init, py_mod. intros Hinit Hemb Hlog.
  rewrite Hemb in Hinit.
  destruct (Nat.eqb_spec (bert_num_attention_heads _ config) 0)
    as [|Hheads]; [discriminate|].
  cbn [bind] in Hinit.
  destruct (Nat.eqb_spec (bert_hidden_size _ config
                          mod bert_num_attention_heads _ config) 0)
    as [Hmod|]; [|discriminate].
  cbn [negb andb bind] in Hinit.
  assert (Hq := exact_quotient _ _ Hheads Hmod Hlog).
  rewrite Hq in Hinit.
  match type of Hinit with
  | context [String.eqb ?t "relative_key"] =>
      destruct (String.eqb_spec t "relative_key") as [|Hrk];
      [discriminate|];
      destruct (String.eqb_spec t "relative_key_query") as [|Hrkq];
      [discriminate|]
  end.
  cbn [orb bind] in Hinit.
  destruct xformers_installed; [|discriminate].
  destruct (select_attn_op true attn_op_name); [|discriminate].
  injection Hinit as <-. cbn. repeat split; auto.
Qed.

(** A [GPT2Attention] that was constructed has a non-zero number of heads
    with [head_dim * num_heads = embed_dim = split_size]; the
    configuration scales the attention weights and asks for none of
    cross attention, scaling by layer index, or reordering; [c_attn]
    produces three times [embed_dim] features. *)
Theorem GPT2Attention_init_invariant
        (xformers_installed : bool) (config : GPT2Config Float)
        (is_cross_attention : bool) (layer_idx : option nat)
        (attn_op_name : option string) (m : GPT2Attention Float Dropout) :
  GPT2Attention_init nn_Dropout xformers_installed config
    is_cross_attention layer_idx attn_op_name = Ok m ->
  g_embed_dim m = gpt2_hidden_size _ config
  /\ g_num_heads m = gpt2_num_attention_heads _ config
  /\ g_num_heads m <> 0
  /\ g_head_dim m * g_num_heads m = g_embed_dim m
  /\ g_split_size m = g_embed_dim m
  /\ g_c_attn m = mkConv1D (3 * g_embed_dim m) (g_embed_dim m)
  /\ g_c_proj m = mkConv1D (g_embed_dim m) (g_embed_dim m)
  /\ gpt2_scale_attn_weights _ config = true
  /\ is_cross_attention = false
  /\ gpt2_scale_attn_by_inverse_layer_idx _ config = false
  /\ gpt2_reorder_and_upcast_attn _ config = false
  /\ xformers_installed = true.
Proof.
  unfold GPT2Attention_init, py_floordiv, assert. intros Hinit.
  destruct (Nat.eqb_spec (gpt2_num_attention_heads _ config) 0)
    as [|Hheads]; [discriminate|].
  cbn [bind] in Hinit.
  destruct (Nat.eqb_spec
              (gpt2_hidden_size _ config / gpt2_num_attention_heads _ config
               * gpt2_num_attention_heads _ config)
              (gpt2_hidden_size _ config)) as [Hdiv|]; [|discriminate].
  cbn [negb bind] in Hinit.
  destruct (gpt2_scale_attn_weights _ config); [|discriminate].
  destruct is_cross_attention; [discriminate|].
  destruct (gpt2_scale_attn_by_inverse_layer_idx _ config); [discriminate|].
  destruct (gpt2_reorder_and_upcast_attn _ config); [discriminate|].
  cbn [negb bind] in Hinit.
  destruct (nn_Dropout (gpt2_attn_pdrop _ config)); [|discriminate].
  destruct (nn_Dropout (gpt2_resid_pdrop _ config)); [|discriminate].
  cbn [bind] in Hinit.
  destruct xformers_installed; [|discriminate].
  destruct (select_attn_op true attn_op_name); [|discriminate].
  injection Hinit as <-. cbn. repeat split; auto.
Qed.

(** [GPT2Attention] cannot be constructed with zero heads
    ([ZeroDivisionError]) nor with an [embed_dim] that the number of heads
    does not divide ([ValueError]): the test [head_dim * num_heads !=
    embed_dim] on the floored quotient is a divisibility test. *)
Theorem GPT2Attention_init_rejects
        (xformers_installed : bool) (config : GPT2Config Float)
        (is_cross_attention : bool) (layer_idx : option nat)
        (attn_op_name : option string) :
  gpt2_hidden_size _ config mod gpt2_num_attention_heads _ config <> 0
  \/ gpt2_num_attention_heads _ config = 0 ->
  GPT2Attention_init nn_Dropout xformers_installed config
    is_cross_attention layer_idx attn_op_name
  = if Nat.eqb (gpt2_num_attention_heads _ config) 0
    then Err ZeroDivisionError
    else Err (ValueError
                (not_divisible_msg (gpt2_hidden_size _ config)
                                   (gpt2_num_attention_heads _ config))).
Proof.
  intros H. unfold GPT2Attention_init, py_floordiv.
  destruct (Nat.eqb_spec (gpt2_num_attention_heads _ config) 0)
    as [|Hheads]; [reflexivity|].
  destruct H as [H|H]; [|contradiction]. cbn [bind].
  destruct (Nat.eqb_spec
              (gpt2_hidden_size _ config / gpt2_num_attention_heads _ config
               * gpt2_num_attention_heads _ config)
              (gpt2_hidden_size _ config)) as [E|]; [|reflexivity].
  exfalso. apply H.
  assert (Hdm := Nat.div_mod_eq (gpt2_hidden_size _ config)
                                (gpt2_num_attention_heads _ config)).
  lia.
Qed.

(** [reshape_for_scores] of a constructed [GenericSelfAttention] accepts
    every tensor whose last dimension is the hidden size and splits that
    dimension into [(num_attention_heads, attention_head_size)], leaving
    the elements in place. *)
Theorem GenericSelfAttention_reshape_for_scores_total
        {A : Type} (xformers_installed : bool)
        (hidden_size num_attention_heads : nat)
        (is_decoder : bool) (attn_pdrop resid_pdrop : Float)
        (attn_op_name : option string) (fused_qkv : bool)
        (m : GenericSelfAttention Float Dropout)
        (x : Tensor A) (pre : list nat) :
  GenericSelfAttention_init int_of_true_div nn_Dropout xformers_installed
    hidden_size num_attention_heads is_decoder attn_pdrop resid_pdrop
    attn_op_name fused_qkv = Ok m ->
  Nat.log2 hidden_size < 53 ->
  shape x = pre ++ [hidden_size] ->
  reshape_for_scores (s_num_attention_heads m) (s_attention_head_size m) x
  = Ok (mkTensor (pre ++ [s_num_attention_heads m; s_attention_head_size m])
                 (data x)).
Proof.
  intros Hinit Hlog Hs.
  destruct (GenericSelfAttention_init_invariant _ _ _ _ _ _ _ _ _ Hinit Hlog)
    as (_ & _ & _ & Hprod & _).
  unfold reshape_for_scores.
  rewrite (view_last_dim x pre hidden_size _ _ Hs), Hprod.
  now rewrite Nat.eqb_refl.
Qed.

(** With the sizes of a constructed [GPT2Attention], [_split_heads]
    accepts every tensor whose last dimension is [embed_dim] and
    [_merge_heads] gives that tensor back. *)
Theorem GPT2Attention_heads_round_trip
        {A : Type} (xformers_installed : bool) (config : GPT2Config Float)
        (is_cross_attention : bool) (layer_idx : option nat)
        (attn_op_name : option string) (m : GPT2Attention Float Dropout)
        (t : Tensor A) (pre : list nat) :
  GPT2Attention_init nn_Dropout xformers_installed config
    is_cross_attention layer_idx attn_op_name = Ok m ->
  shape t = pre ++ [g_embed_dim m] ->
  bind (_split_heads t (g_num_heads m) (g_head_dim m))
       (fun x => _merge_heads x (g_num_heads m) (g_head_dim m))
  = Ok t.
Proof.
  intros Hinit Hs.
  destruct (GPT2Attention_init_invariant _ _ _ _ _ _ Hinit)
    as (_ & _ & _ & Hprod & _).
  apply (split_merge_heads_round_trip t pre).
  now rewrite Hs, <- Hprod, Nat.mul_comm.
Qed.

End Constructors.

End Heads.

(** ** The further properties on concrete inputs *)

Module ConcreteExtras.

Import Torch XformersAttn AttnExamples.

(** "attn" occurs in "attn_fwd": what the longer filter selects is among
    what the shorter one selects. *)
Lemma narrower_filter_selects_fewer_witness :
  is_substring "attn" "attn_fwd"
  /\ plan (plan Examples.ops1 (mkArgs false (Some "attn")))
          (mkArgs false (Some "attn_fwd"))
     = plan Examples.ops1 (mkArgs false (Some "attn_fwd")).
Proof.
  assert (Hsub : is_substring "attn" "attn_fwd")
    by (apply str_in_true_iff; reflexivity).
  split; [exact Hsub|].
  exact (proj2 (narrower_filter_selects_fewer
                  nat Examples.ops1 false "attn" "attn_fwd" Hsub)).
Defined.

Lemma mask_2x3_well_formed : well_formed mask_2x3.
Proof. reflexivity. Qed.

Lemma layout_attention_mask_shape_witness :
  shape mask_2x3 = [2; 1; 1; 3] /\ well_formed mask_2x3 /\ 2 <= 2 /\ 2 <= 3
  /\ exists t, layout_attention_mask mask_2x3 4 = Ok t
               /\ shape t = [2 * 4; 3; 3] /\ well_formed t.
Proof.
  repeat (split; [reflexivity || lia|]).
  apply MaskLayout.layout_attention_mask_shape;
    [reflexivity | reflexivity | lia | lia].
Defined.

Lemma layout_attention_mask_rows_witness :
  shape mask_2x3 = [2; 1; 1; 3] /\ well_formed mask_2x3 /\ 2 <= 2 /\ 2 <= 3
  /\ exists t,
      layout_attention_mask mask_2x3 2 = Ok t
      /\ forall i j k, i < 2 * 2 -> j < 3 -> k < 3 ->
           nth_error (data t) ((i * 3 + j) * 3 + k)
           = nth_error (data mask_2x3) ((i mod 2) * 3 + k).
Proof.
  repeat (split; [reflexivity || lia|]).
  apply MaskLayout.layout_attention_mask_rows;
    [reflexivity | reflexivity | lia | lia].
Defined.

Lemma layout_attention_mask_batch_of_one_witness :
  shape mask_1x3 = [1; 1; 1; 3] /\ (1 = 1 \/ 3 = 1)
  /\ layout_attention_mask mask_1x3 12 = Err IndexError.
Proof.
  split; [reflexivity|]. split; [now left|].
  apply (MaskLayout.layout_attention_mask_batch_of_one mask_1x3 1 3 12);
    [reflexivity | now left].
Defined.

Lemma qkv_well_formed : well_formed qkv_2x2x2x3.
Proof. reflexivity. Qed.

Lemma T_layout_witness :
  shape qkv_2x2x2x3 = [2; 2; 2; 3] /\ well_formed qkv_2x2x2x3
  /\ exists r,
      T qkv_2x2x2x3 = Ok r
      /\ shape r = [2 * 2; 2; 3]
      /\ well_formed r
      /\ forall b h s d, b < 2 -> h < 2 -> s < 2 -> d < 3 ->
           nth_error (data r) (((b * 2 + h) * 2 + s) * 3 + d)
           = nth_error (data qkv_2x2x2x3) (((b * 2 + s) * 2 + h) * 3 + d).
Proof.
  split; [reflexivity|]. split; [reflexivity|].
  apply PtAttentionLayout.T_layout; reflexivity.
Defined.

(** [T] of the example tensor. *)
Lemma T_qkv :
  T qkv_2x2x2x3
  = Ok (mkTensor [4; 2; 3]
                 [0; 1; 2; 6; 7; 8; 3; 4; 5; 9; 10; 11;
                  12; 13; 14; 18; 19; 20; 15; 16; 17; 21; 22; 23]).
Proof. reflexivity. Qed.

Lemma pt_attention_layout_witness :
  let tv := mkTensor [4; 2; 3]
                     [0; 1; 2; 6; 7; 8; 3; 4; 5; 9; 10; 11;
                      12; 13; 14; 18; 19; 20; 15; 16; 17; 21; 22; 23] in
  T qkv_2x2x2x3 = Ok tv
  /\ values_bmk tv tv tv tt tt = Ok tv
  /\ exists r,
      pt_attention true values_bmk qkv_2x2x2x3 qkv_2x2x2x3 qkv_2x2x2x3 tt tt
      = Ok r
      /\ shape r = [2; 2; 2; 3]
      /\ well_formed r
      /\ forall b h s d, b < 2 -> h < 2 -> s < 2 -> d < 3 ->
           nth_error (data r) (((b * 2 + s) * 2 + h) * 3 + d)
           = nth_error (data tv) (((b * 2 + h) * 2 + s) * 3 + d).
Proof.
  intros tv. split; [reflexivity|]. split; [reflexivity|].
  apply (PtAttentionLayout.pt_attention_layout
           values_bmk qkv_2x2x2x3 qkv_2x2x2x3 qkv_2x2x2x3 tv tv tv tv tt tt
           2 2 2 3 3); reflexivity.
Defined.

Lemma pt_attention_puts_values_back_witness :
  (forall tq tk tv, values_bmk tq tk tv tt tt = Ok tv)
  /\ pt_attention true values_bmk qkv_2x2x2x3 qkv_2x2x2x3 qkv_2x2x2x3 tt tt
     = Ok qkv_2x2x2x3.
Proof.
  split; [reflexivity|].
  apply (PtAttentionLayout.pt_attention_puts_values_back
           values_bmk qkv_2x2x2x3 qkv_2x2x2x3 qkv_2x2x2x3 tt tt
           2 2 2 3 2 2 2 3 3); reflexivity.
Defined.

Lemma split_merge_heads_round_trip_witness :
  shape hidden_1x2x12 = [1; 2] ++ [3 * 4]
  /\ _split_heads hidden_1x2x12 3 4
     = Ok (mkTensor ([1; 2] ++ [3; 4]) (data hidden_1x2x12))
  /\ bind (_split_heads hidden_1x2x12 3 4) (fun x => _merge_heads x 3 4)
     = Ok hidden_1x2x12.
Proof.
  split; [reflexivity|].
  apply (Heads.split_merge_heads_round_trip hidden_1x2x12 [1; 2] 3 4).
  reflexivity.
Defined.

Lemma split_heads_rejects_other_sizes_witness :
  shape hidden_1x2x12 = [1; 2] ++ [12] /\ numel [1; 2] <> 0 /\ 12 <> 5 * 2
  /\ _split_heads hidden_1x2x12 5 2 = Err RuntimeError
  /\ reshape_for_scores 5 2 hidden_1x2x12 = Err RuntimeError.
Proof.
  split; [reflexivity|]. split; [discriminate|]. split; [discriminate|].
  apply (Heads.split_heads_rejects_other_sizes hidden_1x2x12 [1; 2] 12 5 2);
    [reflexivity | discriminate | discriminate].
Defined.

(** Integer division is one function [int(a / b)] can be. *)
Lemma div_is_exact : forall a b,
  b <> 0 -> a mod b = 0 -> Nat.log2 a < 53 -> Nat.div a b = a / b.
Proof. reflexivity. Qed.

Lemma log2_768 : Nat.log2 768 < 53.
Proof. apply Nat.leb_le. reflexivity. Qed.

(** [GenericSelfAttention(768, 12, is_decoder=False)]. *)
Lemma GenericSelfAttention_init_invariant_witness :
  let m := mkGenericSelfAttention
             unit unit 768 12 64 768 false
             (separate (mkLinear 768 768) (mkLinear 768 768)
                       (mkLinear 768 768))
             false tt None
             (use_memory_efficient_attention
                MemoryEfficientAttentionCutlassOp) in
  GenericSelfAttention_init Nat.div any_dropout true 768 12 false tt tt
                            (Some "cutlass"%string) false = Ok m
  /\ Nat.log2 768 < 53
  /\ s_num_attention_heads m * s_attention_head_size m = 768
  /\ s_all_head_size m = 768.
Proof.
  intros m.
  assert (Hinit : GenericSelfAttention_init Nat.div any_dropout true 768 12
                    false tt tt (Some "cutlass"%string) false = Ok m)
    by reflexivity.
  split; [exact Hinit|]. split; [exact log2_768|].
  destruct (Heads.GenericSelfAttention_init_invariant
              Nat.div any_dropout div_is_exact true 768 12 false tt tt
              (Some "cutlass"%string) false m Hinit log2_768)
    as (_ & _ & _ & Hprod & Hall & _).
  split; [exact Hprod | exact Hall].
Defined.

(** Ten heads do not divide 768. *)
Lemma GenericSelfAttention_init_rejects_witness :
  (768 mod 10 <> 0 \/ 10 = 0)
  /\ GenericSelfAttention_init Nat.div any_dropout true 768 10 true tt tt
                               None false
     = Err (ValueError (not_a_multiple_msg 768 10)).
Proof.
  assert (H : 768 mod 10 <> 0 \/ 10 = 0) by (left; discriminate).
  split; [exact H|].
  exact (Heads.GenericSelfAttention_init_rejects
           Nat.div any_dropout true 768 10 true tt tt None false H).
Defined.

Lemma BertSelfAttention_init_invariant_witness :
  let m := mkBertSelfAttention
             unit 12 64 768 (mkLinear 768 768) (mkLinear 768 768)
             (mkLinear 768 768) tt "absolute"%string false
             use_pt_attention in
  BertSelfAttention_init Nat.div true bert_base None None = Ok m
  /\ bert_embedding_size _ bert_base = None
  /\ Nat.log2 (bert_hidden_size _ bert_base) < 53
  /\ b_num_attention_heads m * b_attention_head_size m = 768
  /\ b_all_head_size m = 768.
Proof.
  intros m.
  assert (Hinit : BertSelfAttention_init Nat.div true bert_base None None
                  = Ok m) by reflexivity.
  split; [exact Hinit|]. split; [reflexivity|]. split; [exact log2_768|].
  destruct (Heads.BertSelfAttention_init_invariant
              Nat.div div_is_exact true bert_base None None m Hinit
              eq_refl log2_768)
    as (_ & _ & Hprod & Hall & _).
  split; [exact Hprod | exact Hall].
Defined.

Lemma GPT2Attention_init_invariant_witness :
  let m := mkGPT2Attention
             unit unit 768 12 64 768 true false false (Some 0) false
             (mkConv1D 2304 768) (mkConv1D 768 768) tt tt tt tt
             (use_memory_efficient_attention
                MemoryEfficientAttentionFlashAttentionOp) in
  GPT2Attention_init any_dropout true gpt2_small false (Some 0)
                     (Some "triton"%string) = Ok m
  /\ g_head_dim m * g_num_heads m = g_embed_dim m
  /\ g_num_heads m <> 0.
Proof.
  intros m.
  assert (Hinit : GPT2Attention_init any_dropout true gpt2_small false
                    (Some 0) (Some "triton"%string) = Ok m) by reflexivity.
  split; [exact Hinit|].
  destruct (Heads.GPT2Attention_init_invariant
              any_dropout true gpt2_small false (Some 0)
              (Some "triton"%string) m Hinit)
    as (_ & _ & Hheads & Hprod & _).
  split; [exact Hprod | exact Hheads].
Defined.

Lemma GPT2Attention_init_rejects_witness :
  let config := mkGPT2Config unit 768 7 true false false tt tt in
  (gpt2_hidden_size _ config mod gpt2_num_attention_heads _ config <> 0
   \/ gpt2_num_attention_heads _ config = 0)
  /\ GPT2Attention_init any_dropout true config false None None
     = Err (ValueError (not_divisible_msg 768 7)).
Proof.
  intros config.
  assert (H : gpt2_hidden_size _ config mod gpt2_num_attention_heads _ config
              <> 0 \/ gpt2_num_attention_heads _ config = 0)
    by (left; discriminate).
  split; [exact H|].
  exact (Heads.GPT2Attention_init_rejects
           any_dropout true config false None None H).
Defined.

(** Hidden states for a model of hidden size 768. *)
Lemma GenericSelfAttention_reshape_for_scores_total_witness :
  let m := mkGenericSelfAttention
             unit unit 768 12 64 768 false
             (separate (mkLinear 768 768) (mkLinear 768 768)
                       (mkLinear 768 768))
             false tt None
             (use_memory_efficient_attention
                MemoryEfficientAttentionCutlassOp) in
  let x := mkTensor [1; 2; 768] (seq 0 1536) in
  GenericSelfAttention_init Nat.div any_dropout true 768 12 false tt tt
                            (Some "cutlass"%string) false = Ok m
  /\ Nat.log2 768 < 53
  /\ shape x = [1; 2] ++ [768]
  /\ reshape_for_scores 12 64 x = Ok (mkTensor [1; 2; 12; 64] (data x)).
Proof.
  intros m x.
  assert (Hinit : GenericSelfAttention_init Nat.div any_dropout true 768 12
                    false tt tt (Some "cutlass"%string) false = Ok m)
    by reflexivity.
  split; [exact Hinit|]. split; [exact log2_768|]. split; [reflexivity|].
  exact (Heads.GenericSelfAttention_reshape_for_scores_total
           Nat.div any_dropout div_is_exact true 768 12 false tt tt
           (Some "cutlass"%string) false m x [1; 2] Hinit log2_768 eq_refl).
Defined.

Lemma GPT2Attention_heads_round_trip_witness :
  let m := mkGPT2Attention
             unit unit 768 12 64 768 true false false (Some 0) false
             (mkConv1D 2304 768) (mkConv1D 768 768) tt tt tt tt
             (use_memory_efficient_attention
                MemoryEfficientAttentionFlashAttentionOp) in
  let t := mkTensor [1; 2; 768] (seq 0 1536) in
  GPT2Attention_init any_dropout true gpt2_small false (Some 0)
                     (Some "triton"%string) = Ok m
  /\ shape t = [1; 2] ++ [g_embed_dim m]
  /\ bind (_split_heads t 12 64) (fun x => _merge_heads x 12 64) = Ok t.
Proof.
  intros m t.
  assert (Hinit : GPT2Attention_init any_dropout true gpt2_small false
                    (Some 0) (Some "triton"%string) = Ok m) by reflexivity.
  split; [exact Hinit|]. split; [reflexivity|].
  exact (Heads.GPT2Attention_heads_round_trip
           any_dropout true gpt2_small false (Some 0)
           (Some "triton"%string) m t [1; 2] Hinit eq_refl).
Defined.

End ConcreteExtras.
